(** * neuralhydrology tutorials: the GRU model and the CAMELS-CL dataset

    A shallow embedding of the two extension points shown in the tutorial
    notebooks:

    - "Adding a New Model": [GRU.__init__], [forward] and the registry
      function [get_model];
    - "Adding a New Dataset": [load_camels_cl_timeseries],
      [load_camels_cl_attributes] and [CamelsCL._load_attributes].

    Python dictionaries are finite maps, exceptions are values of
    [exception] carried by [result], and code that touches the file system
    or constructs objects runs in a small state-and-error monad whose state
    records what was done. *)

From Stdlib Require Import ZArith QArith Ascii String List Bool Lia.
From stdpp Require Import base tactics option list strings gmap.

Local Open Scope Z_scope.

(** * Python strings *)

Module Str.

(** [str.lower] on the ASCII range: the letters A..Z move to a..z and every
    other byte is kept. *)
Definition lower_ascii (c : ascii) : ascii :=
  let n := nat_of_ascii c in
  if ((65 <=? n)%nat && (n <=? 90)%nat)%bool then ascii_of_nat (n + 32) else c.

Fixpoint lower (s : string) : string :=
  match s with
  | EmptyString => EmptyString
  | String c s' => String (lower_ascii c) (lower s')
  end.

Definition upper_ascii (c : ascii) : ascii :=
  let n := nat_of_ascii c in
  if ((97 <=? n)%nat && (n <=? 122)%nat)%bool then ascii_of_nat (n - 32) else c.

(** Every way of writing [s] with each letter in either case. *)
Fixpoint spellings (s : string) : list string :=
  match s with
  | EmptyString => [EmptyString]
  | String c s' =>
      let rest := spellings s' in
      map (String c) rest ++
      (if Ascii.eqb (upper_ascii c) c then [] else map (String (upper_ascii c)) rest)
  end.

(** [needle in hay] for two strings. *)
Fixpoint contains (needle hay : string) : bool :=
  String.prefix needle hay ||
  match hay with
  | EmptyString => false
  | String _ hay' => contains needle hay'
  end.

(** [sep.join(parts)] *)
Definition join (sep : string) (parts : list string) : string :=
  String.concat sep parts.

End Str.

(** * Exceptions and results *)

(** The exception classes the two notebooks raise or let through.  An
    [OSError] raised by the operating system carries an error number, the
    system's text and the file name; one raised by the program with a single
    message has neither number nor file name. *)
Inductive exception : Type :=
| KeyError (key : string)
| ValueError (msg : string)
| NotImplementedError (msg : string)
| RuntimeError (msg : string)
| ParserError (msg : string)
| FileNotFoundError (errno : option Z) (strerror : string) (filename : option string)
| IsADirectoryError (errno : option Z) (strerror : string) (filename : option string).

(** [str(e)] *)
Definition os_str (errno : option Z) (strerror : string) (filename : option string) : string :=
  match errno, filename with
  | Some 2, Some f => "[Errno 2] " +:+ strerror +:+ ": '" +:+ f +:+ "'"
  | Some 21, Some f => "[Errno 21] " +:+ strerror +:+ ": '" +:+ f +:+ "'"
  | _, _ => strerror
  end.

Definition exception_str (e : exception) : string :=
  match e with
  | KeyError k => "'" +:+ k +:+ "'"
  | ValueError m | NotImplementedError m | RuntimeError m | ParserError m => m
  | FileNotFoundError n s f | IsADirectoryError n s f => os_str n s f
  end.

Inductive result (X : Type) : Type :=
| Ok (x : X)
| Raise (e : exception).
Arguments Ok {X} x.
Arguments Raise {X} e.

(** A computation over a state [S] that may raise. The state survives an
    exception, as the side effects of Python code do. *)
Definition M (S X : Type) : Type := S -> result X * S.

Definition raise {S X} (e : exception) : M S X := fun s => (Raise e, s).
Definition lift {S X} (r : result X) : M S X := fun s => (r, s).

#[global] Instance result_ret : MRet result := fun X x => Ok x.
#[global] Instance result_bind : MBind result := fun X Y k r =>
  match r with
  | Ok x => k x
  | Raise e => Raise e
  end.

#[global] Instance M_ret {S} : MRet (M S) := fun X x s => (Ok x, s).
#[global] Instance M_bind {S} : MBind (M S) := fun X Y k c s =>
  match c s with
  | (Ok x, s') => k x s'
  | (Raise e, s') => (Raise e, s')
  end.

(** * The run configuration *)

(** The fields of [Config] the two notebooks read. *)
Module Config.
Record t : Type := mk {
  model : string;
  dataset : string;
  dynamic_inputs : list string;
  static_inputs : list string;
  hydroatlas_attributes : list string;
  camels_attributes : list string;
  use_basin_id_encoding : bool;
  number_of_basins : Z;
  head : string;
  hidden_size : Z;
  output_dropout : Q;
  use_frequencies : list string;
  data_dir : list string
}.
End Config.

(** * Tensors *)

(** A tensor of rank two or three: its [shape] and its entries as nested
    lists, outermost axis first.  The shape is kept beside the entries
    because nested lists forget the inner sizes when an outer axis is
    empty. *)
Record Tensor2 (A : Type) : Type := mkT2 {
  shape2 : nat * nat;
  data2 : list (list A)
}.
Arguments mkT2 {A}.
Arguments shape2 {A}.
Arguments data2 {A}.

Record Tensor3 (A : Type) : Type := mkT3 {
  shape3 : nat * nat * nat;
  data3 : list (list (list A))
}.
Arguments mkT3 {A}.
Arguments shape3 {A}.
Arguments data3 {A}.

Inductive Tensor (A : Type) : Type :=
| Rank2 (t : Tensor2 A)
| Rank3 (t : Tensor3 A).
Arguments Rank2 {A}.
Arguments Rank3 {A}.

Section TensorOps.
Context {A : Type}.

(** The entries agree with the shape. *)
Definition wf2 (t : Tensor2 A) : bool :=
  let '(d0, d1) := shape2 t in
  (length (data2 t) =? d0)%nat && forallb (fun r => (length r =? d1)%nat) (data2 t).

Definition wf3 (t : Tensor3 A) : bool :=
  let '(d0, d1, d2) := shape3 t in
  (length (data3 t) =? d0)%nat &&
  forallb (fun m => (length m =? d1)%nat && forallb (fun r => (length r =? d2)%nat) m)
          (data3 t).

(** The entries [l] fill the shape [(d0, d1, d2)]: what [wf3] decides. *)
Definition filled3 (l : list (list (list A))) (d0 d1 d2 : nat) : Prop :=
  length l = d0 /\
  Forall (fun m => length m = d1 /\ Forall (fun r => length r = d2) m) l.

Definition filled2 (l : list (list A)) (d0 d1 : nat) : Prop :=
  length l = d0 /\ Forall (fun r => length r = d1) l.

(** [t[i][j]], the feature vector at position [(i, j)] *)
Definition row3 (t : Tensor3 A) (i j : nat) : list A := nth j (nth i (data3 t) []) [].


(** [t.transpose(0, 1)] *)
Definition transpose01 (t : Tensor3 A) : Tensor3 A :=
  let '(d0, d1, d2) := shape3 t in
  {| shape3 := (d1, d0, d2);
     data3 := map (fun j => map (fun m => nth j m []) (data3 t)) (seq 0 d1) |}.

(** [t.unsqueeze(0)] *)
Definition unsqueeze0 (t : Tensor2 A) : Tensor3 A :=
  let '(d0, d1) := shape2 t in
  {| shape3 := (1%nat, d0, d1); data3 := [data2 t] |}.

(** [t.repeat(n, 1, 1)]: [n] copies of [t] laid along the first axis *)
Definition repeat0 (n : nat) (t : Tensor3 A) : Tensor3 A :=
  let '(d0, d1, d2) := shape3 t in
  {| shape3 := ((n * d0)%nat, d1, d2); data3 := concat (replicate n (data3 t)) |}.

(** [torch.cat([a, b], dim=-1)]: the two leading axes must agree. *)
Definition cat2 (a b : Tensor3 A) : result (Tensor3 A) :=
  let '(a0, a1, a2) := shape3 a in
  let '(b0, b1, b2) := shape3 b in
  if ((a0 =? b0)%nat && (a1 =? b1)%nat)%bool
  then Ok {| shape3 := (a0, a1, (a2 + b2)%nat);
             data3 := zip_with (zip_with app) (data3 a) (data3 b) |}
  else Raise (RuntimeError "Sizes of tensors must match except in dimension 2").

(** [torch.cat(ts, dim=-1)] *)
Fixpoint cat_last (ts : list (Tensor3 A)) : result (Tensor3 A) :=
  match ts with
  | [] => Raise (RuntimeError "torch.cat(): expected a non-empty list of Tensors")
  | [t] => Ok t
  | t :: rest => r ← cat_last rest; cat2 t r
  end.

(** Reading an entry of the input dictionary at the rank the code uses it
    at.  A missing key is a [KeyError]; a tensor of another rank makes the
    tensor library fail further on, which is folded into one error here. *)
Definition getitem (data : gmap string (Tensor A)) (key : string) : result (Tensor A) :=
  match data !! key with
  | Some t => Ok t
  | None => Raise (KeyError key)
  end.

Definition as_rank3 (t : Tensor A) : result (Tensor3 A) :=
  match t with
  | Rank3 t => Ok t
  | Rank2 _ => Raise (RuntimeError "expected a tensor of rank 3")
  end.

Definition as_rank2 (t : Tensor A) : result (Tensor2 A) :=
  match t with
  | Rank2 t => Ok t
  | Rank3 _ => Raise (RuntimeError "expected a tensor of rank 2")
  end.

End TensorOps.

(** * The model adapter *)

(** [torch.nn.GRU(input_size=..., hidden_size=...)] and
    [torch.nn.Dropout(p=...)] as the constructor builds them. *)
Record nnGRU : Type := mk_nnGRU {
  input_size : Z;
  hidden_size : Z
}.

Record nnDropout : Type := mk_nnDropout {
  p : Q
}.

(** The tensor library.  [nnGRU_forward cell x] is [cell(input=x)], the pair
    of the full output sequence and the final hidden state;
    [nnDropout_forward] is one application of the dropout layer (whatever
    mask it draws). *)
Class Torch (A : Type) : Type := {
  nnGRU_forward : nnGRU -> Tensor3 A -> result (Tensor3 A * Tensor3 A);
  nnDropout_forward : nnDropout -> Tensor3 A -> Tensor3 A
}.

(** What the tensor library documents about shapes: a sequence-first input
    [(T, B, input_size)] with at least one time step gives an output sequence
    [(T, B, hidden_size)] and a final hidden state [(1, B, hidden_size)] (an
    empty sequence is refused: "Expected sequence length to be larger than 0
    in RNN"); dropout keeps the shape. *)
Class TorchShapes (A : Type) `{Torch A} : Prop := {
  nnGRU_forward_shape : forall cell x T B W,
    wf3 x = true -> shape3 x = (T, B, W) -> (0 < T)%nat ->
    Z.of_nat W = input_size cell ->
    exists out h_n,
      nnGRU_forward cell x = Ok (out, h_n) /\
      wf3 out = true /\ wf3 h_n = true /\
      shape3 out = (T, B, Z.to_nat (hidden_size cell)) /\
      shape3 h_n = (1%nat, B, Z.to_nat (hidden_size cell));
  nnDropout_forward_shape : forall d x,
    wf3 x = true ->
    wf3 (nnDropout_forward d x) = true /\ shape3 (nnDropout_forward d x) = shape3 x
}.

(** Modelled from the spec: the head factory [get_head] of
    [neuralhydrology.modelzoo.head] and the base model's [output_size]
    property, neither of which the notebooks define.  A head maps a
    batch-first tensor to a dictionary of tensors. *)
Class HeadFactory (A : Type) : Type := {
  Head : Type;
  get_head : Config.t -> Z -> Z -> result Head;
  head_forward : Head -> Tensor3 A -> gmap string (Tensor A);
  output_size : Config.t -> Z
}.

(** Modelled from the spec: the head's output "must include [y_hat] covering
    every timestep", so its two leading axes are those of the head's input. *)
Class HeadContract (A : Type) `{HeadFactory A} : Prop := {
  head_forward_y_hat : forall h x B T H,
    wf3 x = true -> shape3 x = (B, T, H) ->
    exists y n, head_forward h x !! "y_hat" = Some (Rank3 y) /\
                wf3 y = true /\ shape3 y = (B, T, n)
}.

Module GRU.
Section GRU.
Context {A : Type} `{Torch A} `{HeadFactory A}.

Record t : Type := mk {
  gru : nnGRU;
  dropout : nnDropout;
  head : Head
}.

(** specify submodules of the model that can later be used for finetuning *)
Definition module_parts : list string := ["gru"; "head"].

(** the dimension of inputs that will be fed into the model *)
Definition calc_input_size (cfg : Config.t) : Z :=
  let input_size :=
    Z.of_nat (length (Config.dynamic_inputs cfg ++ Config.static_inputs cfg ++
                      Config.hydroatlas_attributes cfg ++ Config.camels_attributes cfg)) in
  let input_size :=
    if Config.use_basin_id_encoding cfg
    then input_size + Config.number_of_basins cfg else input_size in
  let input_size :=
    if String.eqb (Str.lower (Config.head cfg)) "umal"
    then input_size + 1 else input_size in
  input_size.

Definition __init__ (cfg : Config.t) : result t :=
  let input_size := calc_input_size cfg in
  let gru := mk_nnGRU input_size (Config.hidden_size cfg) in
  let dropout := mk_nnDropout (Config.output_dropout cfg) in
  head ← get_head cfg (Config.hidden_size cfg) (output_size cfg);
  Ok (mk gru dropout head).

(** The first half of [forward]: the tensor handed to the recurrent cell. *)
Definition forward_inputs (data : gmap string (Tensor A)) : result (Tensor3 A) :=
  x_d ← getitem data "x_d" ≫= as_rank3;
  let x_d := transpose01 x_d in
  let T := (shape3 x_d).1.1 in
  match data !! "x_s", data !! "x_one_hot" with
  | Some xs, Some xo =>
      x_s ← as_rank2 xs;
      let x_s := repeat0 T (unsqueeze0 x_s) in
      x_one_hot ← as_rank2 xo;
      let x_one_hot := repeat0 T (unsqueeze0 x_one_hot) in
      cat_last [x_d; x_s; x_one_hot]
  | Some xs, None =>
      x_s ← as_rank2 xs;
      let x_s := repeat0 T (unsqueeze0 x_s) in
      cat_last [x_d; x_s]
  | None, Some xo =>
      x_one_hot ← as_rank2 xo;
      let x_one_hot := repeat0 T (unsqueeze0 x_one_hot) in
      cat_last [x_d; x_one_hot]
  | None, None => Ok x_d
  end.

Definition forward (self : t) (data : gmap string (Tensor A))
  : result (gmap string (Tensor A)) :=
  x_d ← forward_inputs data;
  '(gru_output, h_n) ← nnGRU_forward (gru self) x_d;
  let h_n := transpose01 h_n in
  let pred : gmap string (Tensor A) := {[ "h_n" := Rank3 h_n ]} in
  (* pred.update(other): the entries of [other] win *)
  Ok (head_forward (head self)
        (nnDropout_forward (dropout self) (transpose01 gru_output)) ∪ pred).

End GRU.
Arguments t A {_}.
End GRU.

(** The width the constructor computes, term by term. *)
Definition expected_width (cfg : Config.t) : Z :=
  Z.of_nat (length (Config.dynamic_inputs cfg)) +
  Z.of_nat (length (Config.static_inputs cfg)) +
  Z.of_nat (length (Config.hydroatlas_attributes cfg)) +
  Z.of_nat (length (Config.camels_attributes cfg)) +
  (if Config.use_basin_id_encoding cfg then Config.number_of_basins cfg else 0) +
  (if bool_decide (Config.head cfg ∈ Str.spellings "umal") then 1 else 0).

(** The feature width and the feature row an optional input contributes:
    nothing when the key is absent. *)
Definition opt_width {A} (o : option (Tensor2 A)) : nat :=
  from_option (fun s => (shape2 s).2) 0%nat o.


(** * The model registry *)

(** The classes [get_model] can instantiate. *)
Inductive model_class : Type :=
| CudaLSTM | EALSTM | LSTM | GRU | EmbCudaLSTM | MTSLSTM | ODELSTM.

(** The model zoo behind [get_model]: the constructors of its classes, which
    may raise, and the constant [SINGLE_FREQ_MODELS]; the registry's source
    shows neither. *)
Class Modelzoo : Type := {
  nnModule : Type;
  construct : model_class -> Config.t -> result nnModule;
  SINGLE_FREQ_MODELS : list string
}.

Section Registry.
Context `{Modelzoo}.

(** The state of the registry's computations: the constructor calls made so
    far, oldest first. *)
Definition constructions : Type := list (model_class * Config.t).

(** [Class(cfg=cfg)] *)
Definition new (c : model_class) (cfg : Config.t) : M constructions nnModule :=
  fun log => (construct c cfg, log ++ [(c, cfg)]).

Definition get_model (cfg : Config.t) : M constructions nnModule :=
  if bool_decide (Config.model cfg ∈ SINGLE_FREQ_MODELS) &&
     bool_decide (1 < length (Config.use_frequencies cfg))%nat
  then raise (ValueError ("Model " +:+ Config.model cfg +:+
                          " does not support multiple frequencies."))
  else
    model ←
      (if String.eqb (Config.model cfg) "cudalstm" then new CudaLSTM cfg
       else if String.eqb (Config.model cfg) "ealstm" then new EALSTM cfg
       else if String.eqb (Config.model cfg) "lstm" then new LSTM cfg
       else if String.eqb (Config.model cfg) "gru" then new GRU cfg
       else if String.eqb (Config.model cfg) "embcudalstm" then new EmbCudaLSTM cfg
       else if String.eqb (Config.model cfg) "mtslstm" then new MTSLSTM cfg
       else if String.eqb (Config.model cfg) "odelstm" then new ODELSTM cfg
       else raise (NotImplementedError
                     (Config.model cfg +:+ " not implemented or not linked in `get_model()`")));
    mret model.

End Registry.

(** * Tables *)

(** A cell or a label of a table: text, a number, a timestamp, or the
    missing value (NaN, NaT).  Cells that pandas reads as booleans are not
    modelled. *)
Inductive value (num time : Type) : Type :=
| VStr (s : string)
| VNum (x : num)
| VTime (t : time)
| VNull.
Arguments VStr {num time}.
Arguments VNum {num time}.
Arguments VTime {num time}.
Arguments VNull {num time}.

#[global] Instance value_eq_dec {num time} `{EqDecision num, EqDecision time} :
  EqDecision (value num time).
Proof. solve_decision. Defined.

(** What the tokenizer of [read_csv] hands over: the header names and one
    record per line. *)
Record RawTable (num time : Type) : Type := mkRaw {
  header : list string;
  records : list (list (value num time))
}.
Arguments mkRaw {num time}.
Arguments header {num time}.
Arguments records {num time}.

(** A [pd.DataFrame]: row labels, column labels, and one series of cells per
    column label. *)
Record DataFrame (num time : Type) : Type := mkDF {
  index : list (value num time);
  columns : list (value num time);
  series : list (list (value num time))
}.
Arguments mkDF {num time}.
Arguments index {num time}.
Arguments columns {num time}.
Arguments series {num time}.

(** What [df[label]] selects: one series, or a frame when the label occurs
    more than once. *)
Inductive selection (num time : Type) : Type :=
| Series (s : list (value num time))
| Frame (df : DataFrame num time).
Arguments Series {num time}.
Arguments Frame {num time}.

(** The parsing routines of pandas: the tokenizer for a given separator and
    file text, and the readers of one number and one timestamp. *)
Class Pandas (num time : Type) : Type := {
  tokenize : string -> string -> result (RawTable num time);
  parse_num : string -> option num;
  parse_time : string -> option time;
  num_to_time : num -> option time
}.

Inductive axis : Type := axis0 | axis1.

Section Frames.
Context {num time : Type} `{EqDecision num, EqDecision time} `{Pandas num time}.

Local Abbreviation value := (value num time).
Local Abbreviation DataFrame := (DataFrame num time).

Fixpoint index_of (x : string) (l : list string) : option nat :=
  match l with
  | [] => None
  | y :: l' => if String.eqb x y then Some 0%nat else S <$> index_of x l'
  end.

(** The entries of [l] at the positions where [mask] is true. *)
Fixpoint select {X} (mask : list bool) (l : list X) : list X :=
  match mask, l with
  | b :: mask', x :: l' => if b then x :: select mask' l' else select mask' l'
  | _, _ => []
  end.

(** [label in names], for a label of a table and a list of strings *)
Definition label_in (label : value) (names : list string) : bool :=
  match label with
  | VStr s => bool_decide (s ∈ names)
  | _ => false
  end.

(** The frame [read_csv(..., index_col=index_col)] builds from the
    tokenizer's output. *)
Definition set_index (index_col : string) (tbl : RawTable num time) : result DataFrame :=
  match index_of index_col (header tbl) with
  | None => Raise (ValueError ("Index " +:+ index_col +:+ " invalid"))
  | Some i =>
      let cols := map (fun j => map (fun r => nth j r VNull) (records tbl))
                      (seq 0 (length (header tbl))) in
      Ok {| index := map (fun r => nth i r VNull) (records tbl);
            columns := VStr <$> delete i (header tbl);
            series := delete i cols |}
  end.

(** [df.transpose()] *)
Definition transpose (df : DataFrame) : DataFrame :=
  {| index := columns df;
     columns := index df;
     series := map (fun k => map (fun col => nth k col VNull) (series df))
                   (seq 0 (length (index df))) |}.

(** [pd.to_numeric] on one cell *)
Definition numeric_cell (v : value) : option value :=
  match v with
  | VStr s => VNum <$> parse_num s
  | VNum x => Some (VNum x)
  | VNull => Some VNull
  | VTime _ => None
  end.

(** [pd.to_numeric(col, errors='ignore')]: invalid parsing returns the
    input. *)
Definition to_numeric (col : list value) : list value :=
  match mapM numeric_cell col with
  | Some col' => col'
  | None => col
  end.

(** [df.apply(pd.to_numeric, errors='ignore')] *)
Definition apply_to_numeric (df : DataFrame) : DataFrame :=
  {| index := index df; columns := columns df; series := to_numeric <$> series df |}.

(** [pd.to_datetime] on one cell *)
Definition datetime_cell (v : value) : option value :=
  match v with
  | VStr s => VTime <$> parse_time s
  | VNum x => VTime <$> num_to_time x
  | VTime t => Some (VTime t)
  | VNull => Some VNull
  end.

(** [pd.to_datetime(x)] with the default [errors='raise'].  A frame is
    assembled from columns named year, month and day; the frames reaching
    this call repeat one label and have none of them. *)
Definition to_datetime (x : selection num time) : result (list value) :=
  match x with
  | Series col =>
      match mapM datetime_cell col with
      | Some col' => Ok col'
      | None => Raise (ValueError "to_datetime: unable to parse a value as a datetime")
      end
  | Frame _ =>
      Raise (ValueError "to assemble mappings requires at least that [year, month, day] be specified")
  end.

(** The conversion [read_csv(..., parse_dates=[...])] applies to the index:
    labels that do not all parse are returned unaltered. *)
Definition parse_dates_index (df : DataFrame) : DataFrame :=
  match mapM datetime_cell (index df) with
  | Some idx => {| index := idx; columns := columns df; series := series df |}
  | None => df
  end.

(** [df[label]] *)
Definition getitem_col (df : DataFrame) (label : string) : result (selection num time) :=
  let mask := (fun c => bool_decide (c = VStr label)) <$> columns df in
  match select mask (series df) with
  | [] => Raise (KeyError label)
  | [col] => Ok (Series col)
  | cols => Ok (Frame {| index := index df; columns := select mask (columns df);
                         series := cols |})
  end.

(** [df[label] = col]: every column of that label is replaced; a new column
    is appended when there is none. *)
Definition setitem_col (df : DataFrame) (label : string) (col : list value) : DataFrame :=
  if bool_decide (VStr label ∈ columns df)
  then {| index := index df; columns := columns df;
          series := zip_with (fun c old => if bool_decide (c = VStr label) then col else old)
                             (columns df) (series df) |}
  else {| index := index df; columns := columns df ++ [VStr label];
          series := series df ++ [col] |}.

(** [df.drop(labels, axis=...)]: every label must occur on the axis. *)
Definition drop (labels : list value) (ax : axis) (df : DataFrame) : result DataFrame :=
  match ax with
  | axis0 =>
      if forallb (fun l => bool_decide (l ∈ index df)) labels
      then let keep := (fun l => bool_decide (l ∉ labels)) <$> index df in
           Ok {| index := select keep (index df); columns := columns df;
                 series := select keep <$> series df |}
      else Raise (KeyError "labels not found in axis")
  | axis1 =>
      if forallb (fun l => bool_decide (l ∈ columns df)) labels
      then let keep := (fun l => bool_decide (l ∉ labels)) <$> columns df in
           Ok {| index := index df; columns := select keep (columns df);
                 series := select keep (series df) |}
      else Raise (KeyError "labels not found in axis")
  end.

End Frames.

(** * The file system *)

(** A [pathlib.Path] by its parts; [p / name] appends a part. *)
Abbreviation Path := (list string).

Definition path_str (p : Path) : string := Str.join "/" p.

Inductive node : Type :=
| Directory
| File (text : string).

(** What a computation asked of the file system. *)
Inductive event : Type :=
| EvIsDir (p : Path)
| EvOpen (p : Path).

(** The world the dataset code runs in: the files, the list object that is
    the default value of the [basins] parameter of
    [load_camels_cl_attributes] (created once, shared by every call that
    omits the argument), and the file-system requests made so far. *)
Record world : Type := mkWorld {
  fs : gmap (list string) node;
  default_basins : list string;
  trace : list event
}.

Definition log (e : event) (w : world) : world :=
  {| fs := fs w; default_basins := default_basins w; trace := trace w ++ [e] |}.

(** [p.is_dir()] *)
Definition is_dir (p : Path) : M world bool :=
  fun w => (Ok (match fs w !! p with Some Directory => true | _ => false end),
            log (EvIsDir p) w).

(** Opening [p] for reading and taking its text. *)
Definition read_text (p : Path) : M world string :=
  fun w =>
    (match fs w !! p with
     | Some (File text) => Ok text
     | Some Directory =>
         Raise (IsADirectoryError (Some 21) "Is a directory" (Some (path_str p)))
     | None =>
         Raise (FileNotFoundError (Some 2) "No such file or directory" (Some (path_str p)))
     end, log (EvOpen p) w).

(** * The CAMELS-CL dataset *)

(** The remediation sentence that closes the message of the missing
    directory error. *)
Definition remediation_text : string :=
  "Use preprocessed_camels_cl_dataset in neuralhydrology.datasetzoo.camelscl to preprocess the CAMELS CL data set once into per-basin files.".

(** The function of [neuralhydrology.datasetzoo.camelscl] that creates the
    [preprocessed] folder, under the name the notebook's text gives it
    ("You can find the function `preprocess_camels_cl_dataset` in
    `neuralhydrology.datasetzoo.camelscl`"). *)
Definition preprocess_function : string := "preprocess_camels_cl_dataset".

(** The two columns of the attributes table that hold the record period. *)
Definition date_columns : list string := ["record_period_start"; "record_period_end"].


(** A computation that only reads: it leaves the files and the shared
    default list as they were, and its result depends on nothing else. *)
Definition read_only {X} (c : M world X) : Prop :=
  forall w,
    fs (c w).2 = fs w /\ default_basins (c w).2 = default_basins w /\
    forall w', fs w' = fs w -> default_basins w' = default_basins w -> (c w').1 = (c w).1.



Section CamelsCL.
Context {num time : Type} `{EqDecision num, EqDecision time} `{Pandas num time}.

Local Abbreviation DataFrame := (DataFrame num time).

(** [pd.read_csv(path, sep=sep, index_col=index_col)], and [parse_dates] for
    the index column when [dates] is set. *)
Definition read_csv (path : Path) (sep index_col : string) (dates : bool)
  : M world DataFrame :=
  text ← read_text path;
  tbl ← lift (tokenize sep text);
  df ← lift (set_index index_col tbl);
  mret (if dates then parse_dates_index df else df).

Definition missing_preprocessed_msg (preprocessed_dir : Path) : string :=
  "No preprocessed data directory found at " +:+ path_str preprocessed_dir +:+
  ". Use preprocessed_camels_cl_dataset " +:+
  "in neuralhydrology.datasetzoo.camelscl to preprocess the CAMELS CL data set once into " +:+
  "per-basin files.".

Definition load_camels_cl_timeseries (data_dir : Path) (basin : string)
  : M world DataFrame :=
  let preprocessed_dir := data_dir ++ ["preprocessed"] in
  found ← is_dir preprocessed_dir;
  if negb found
  then raise (FileNotFoundError None (missing_preprocessed_msg preprocessed_dir) None)
  else
    let basin_file := preprocessed_dir ++ [basin +:+ ".csv"] in
    df ← read_csv basin_file "," "date" true;
    mret df.

Definition tab : string := String (ascii_of_nat 9) EmptyString.

(** [basins] is [None] when the caller omits the argument; the parameter is
    then bound to the shared default list. *)
Definition load_camels_cl_attributes (data_dir : Path) (basins : option (list string))
  : M world DataFrame :=
  basins ← (match basins with
            | Some l => mret l
            | None => fun w => (Ok (default_basins w), w)
            end);
  let attributes_file := data_dir ++ ["1_CAMELScl_attributes.txt"] in
  df ← read_csv attributes_file tab "gauge_id" false;
  let df := transpose df in
  let df := apply_to_numeric df in
  col ← lift (getitem_col df "record_period_start" ≫= to_datetime);
  let df := setitem_col df "record_period_start" col in
  col ← lift (getitem_col df "record_period_end" ≫= to_datetime);
  let df := setitem_col df "record_period_end" col in
  match basins with
  | _ :: _ =>
      let drop_basins := filter (fun b => label_in b basins = false) (index df) in
      df ← lift (drop drop_basins axis0 df);
      mret df
  | [] => mret df
  end.

(** The rows of a series the loader keeps for a list of requested basins:
    all of them when the list is empty. *)
Definition requested_rows {X} (bs : list string) (idx : list (value num time))
    (col : list X) : list X :=
  match bs with
  | [] => col
  | _ :: _ => select ((fun b => label_in b bs) <$> idx) col
  end.

(** The part of a [CamelsCL] object its two loading methods read: the
    configuration and the basin list kept by the base class. *)
Record CamelsCL : Type := mkCamelsCL {
  cfg : Config.t;
  basins : list string
}.

Definition _load_basin_data (self : CamelsCL) (basin : string) : M world DataFrame :=
  df ← load_camels_cl_timeseries (Config.data_dir (cfg self)) basin;
  mret df.

(** A Python function that falls off its end returns [None]. *)
Definition _load_attributes (self : CamelsCL) : M world (option DataFrame) :=
  match Config.camels_attributes (cfg self) with
  | _ :: _ =>
      df ← load_camels_cl_attributes (Config.data_dir (cfg self)) (Some (basins self));
      let drop_cols :=
        filter (fun c => label_in c (Config.camels_attributes (cfg self)) = false)
               (columns df) in
      df ← lift (drop drop_cols axis1 df);
      mret (Some df)
  | [] => mret None
  end.

End CamelsCL.

(** * More of the two notebooks *)

(** The names [get_model] knows, each with the class it instantiates, in the
    order of its tests. *)
Definition registry : list (string * model_class) :=
  [("cudalstm", CudaLSTM); ("ealstm", EALSTM); ("lstm", LSTM); ("gru", GRU);
   ("embcudalstm", EmbCudaLSTM); ("mtslstm", MTSLSTM); ("odelstm", ODELSTM)].

(** The dataset classes [get_dataset] selects from. *)
Module DatasetClass.
Inductive t : Type := CamelsUS | CamelsGB | HourlyCamelsUS | CamelsCL.
End DatasetClass.

(** The arguments every dataset class takes, as [get_dataset] receives and
    passes them on. *)
Module DatasetArgs.
Record t (Features IdToInt Scaler : Type) : Type := mk {
  cfg : Config.t;
  is_train : bool;
  period : string;
  basin : option string;
  additional_features : list Features;
  id_to_int : IdToInt;
  scaler : Scaler
}.
Arguments mk {Features IdToInt Scaler}.
Arguments cfg {Features IdToInt Scaler}.
Arguments is_train {Features IdToInt Scaler}.
Arguments period {Features IdToInt Scaler}.
Arguments basin {Features IdToInt Scaler}.
Arguments additional_features {Features IdToInt Scaler}.
Arguments id_to_int {Features IdToInt Scaler}.
Arguments scaler {Features IdToInt Scaler}.
End DatasetArgs.

(** The dataset zoo behind [get_dataset]: the types of the three structured
    arguments and the constructors of the classes, which may raise. *)
Class Datasetzoo : Type := {
  Features : Type;
  IdToInt : Type;
  Scaler : Type;
  BaseDataset : Type;
  construct_dataset :
    DatasetClass.t -> DatasetArgs.t Features IdToInt Scaler -> result BaseDataset
}.

Section DatasetRegistry.
Context `{Datasetzoo}.

Definition dataset_constructions : Type :=
  list (DatasetClass.t * DatasetArgs.t Features IdToInt Scaler).

(** [Dataset(cfg=cfg, is_train=is_train, ...)] *)
Definition new_dataset (c : DatasetClass.t) (args : DatasetArgs.t Features IdToInt Scaler)
  : M dataset_constructions BaseDataset :=
  fun made => (construct_dataset c args, made ++ [(c, args)]).

Definition get_dataset (args : DatasetArgs.t Features IdToInt Scaler)
  : M dataset_constructions BaseDataset :=
  let cfg := DatasetArgs.cfg args in
  Dataset ←
    (if String.eqb (Config.dataset cfg) "camels_us" then mret DatasetClass.CamelsUS
     else if String.eqb (Config.dataset cfg) "camels_gb" then mret DatasetClass.CamelsGB
     else if String.eqb (Config.dataset cfg) "hourly_camels_us"
          then mret DatasetClass.HourlyCamelsUS
     else if String.eqb (Config.dataset cfg) "camels_cl" then mret DatasetClass.CamelsCL
     else raise (NotImplementedError
                   ("No dataset class implemented for dataset " +:+ Config.dataset cfg)));
  ds ← new_dataset Dataset args;
  mret ds.

End DatasetRegistry.

(** The names [get_dataset] knows, each with the class it selects. *)
Definition dataset_registry : list (string * DatasetClass.t) :=
  [("camels_us", DatasetClass.CamelsUS); ("camels_gb", DatasetClass.CamelsGB);
   ("hourly_camels_us", DatasetClass.HourlyCamelsUS);
   ("camels_cl", DatasetClass.CamelsCL)].

Section FrameShapes.
Context {num time : Type}.

(** A table is rectangular: one series per column label, one cell per row
    label in each series. *)
Definition rectangular (df : DataFrame num time) : Prop :=
  length (series df) = length (columns df) /\
  Forall (fun col => length col = length (index df)) (series df).

(** The rows of [df] whose label is one of [bs], in their order; all rows
    when [bs] is empty. *)
Definition keep_rows (bs : list string) (df : DataFrame num time) : DataFrame num time :=
  match bs with
  | [] => df
  | _ :: _ =>
      {| index := filter (fun b => label_in b bs = true) (index df);
         columns := columns df;
         series := select ((fun b => label_in b bs) <$> index df) <$> series df |}
  end.

(** The columns of [df] whose label is one of [names], in their order. *)
Definition keep_columns (names : list string) (df : DataFrame num time)
  : DataFrame num time :=
  {| index := index df;
     columns := filter (fun c => label_in c names = true) (columns df);
     series := select ((fun c => label_in c names) <$> columns df) (series df) |}.

End FrameShapes.

Section LoaderSteps.
Context {num time : Type} `{EqDecision num, EqDecision time} `{Pandas num time}.

(** The two assignments of [load_camels_cl_attributes] that turn the
    record-period columns into timestamps, one after the other. *)
Definition convert_date_columns (df : DataFrame num time) : result (DataFrame num time) :=
  col ← getitem_col df "record_period_start" ≫= to_datetime;
  let df := setitem_col df "record_period_start" col in
  col ← getitem_col df "record_period_end" ≫= to_datetime;
  Ok (setitem_col df "record_period_end" col).

(** The path of the attributes file and of the file of one basin. *)
Definition attributes_file (data_dir : Path) : Path :=
  data_dir ++ ["1_CAMELScl_attributes.txt"].

Definition basin_file (data_dir : Path) (basin : string) : Path :=
  (data_dir ++ ["preprocessed"]) ++ [basin +:+ ".csv"].

(** The series of [df] that carry the column label [label]: what
    [df[label]] selects. *)
Definition column_cells (df : DataFrame num time) (label : string)
  : list (list (value num time)) :=
  select ((fun c => bool_decide (c = VStr label)) <$> columns df) (series df).

(** The column [label] can be converted to timestamps: exactly one series
    carries the label and [to_datetime] accepts each of its cells. *)
Definition date_ready (df : DataFrame num time) (label : string) : Prop :=
  exists col, column_cells df label = [col] /\
              Forall (fun c => is_Some (datetime_cell c)) col.

(** The three ways the conversion of the column [label] fails, each with
    its exception: no series carries the label; several do, so that a frame
    is selected and [to_datetime] cannot assemble dates from it; or the one
    series has a cell that [to_datetime] cannot parse. *)
Inductive date_failure (df : DataFrame num time) (label : string) : exception -> Prop :=
| missing_label :
    column_cells df label = [] ->
    date_failure df label (KeyError label)
| repeated_label :
    (1 < length (column_cells df label))%nat ->
    date_failure df label
      (ValueError "to assemble mappings requires at least that [year, month, day] be specified")
| unparsed_cell (col : list (value num time)) :
    column_cells df label = [col] ->
    Exists (fun c => datetime_cell c = None) col ->
    date_failure df label
      (ValueError "to_datetime: unable to parse a value as a datetime").

End LoaderSteps.

(** * Reference instances

    Small executable stand-ins for the libraries, used to run the
    definitions above on concrete inputs: integer tensors, a recurrent cell
    and a head that sum their inputs, a line-and-separator tokenizer, and
    readers for decimal integers and ISO dates. *)

Module Fixture.

Definition sumZ (l : list Z) : Z := foldr Z.add 0 l.

Definition cell_forward (cell : nnGRU) (x : Tensor3 Z) : result (Tensor3 Z * Tensor3 Z) :=
  let '(T, B, W) := shape3 x in
  let Hn := Z.to_nat (hidden_size cell) in
  if (T =? 0)%nat
  then Raise (RuntimeError "Expected sequence length to be larger than 0 in RNN")
  else if wf3 x && (Z.of_nat W =? input_size cell)
  then
    let out_at := fun t b => replicate Hn (sumZ (row3 x t b)) in
    Ok ({| shape3 := (T, B, Hn);
           data3 := map (fun t => map (out_at t) (seq 0 B)) (seq 0 T) |},
        {| shape3 := (1%nat, B, Hn);
           data3 := [map (out_at (T - 1)%nat) (seq 0 B)] |})
  else Raise (RuntimeError "input.size(-1) must be equal to input_size").

#[global] Instance torch : Torch Z := {|
  nnGRU_forward := cell_forward;
  nnDropout_forward := fun _ x => x
|}.

Definition known_heads : list string := ["regression"; "gmm"; "umal"; "cmal"].

Definition linear_head (n_out : nat) (x : Tensor3 Z) : gmap string (Tensor Z) :=
  let '(B, T, _) := shape3 x in
  {[ "y_hat" := Rank3 {| shape3 := (B, T, n_out);
                         data3 := map (map (fun r => replicate n_out (sumZ r))) (data3 x) |} ]}.

#[global] Instance heads : HeadFactory Z := {|
  Head := nat;
  get_head := fun cfg n_in n_out =>
    if bool_decide (Str.lower (Config.head cfg) ∈ known_heads)
    then Ok (Z.to_nat n_out)
    else Raise (NotImplementedError (Config.head cfg +:+ " not implemented or not linked in `get_head()`"));
  head_forward := linear_head;
  output_size := fun _ => 1
|}.

#[global] Instance zoo : Modelzoo := {|
  nnModule := model_class;
  construct := fun c _ => Ok c;
  SINGLE_FREQ_MODELS := ["cudalstm"; "ealstm"; "lstm"; "gru"; "embcudalstm"]
|}.

(** The pieces of [s] between occurrences of [sep]. *)
Fixpoint split (sep : ascii) (s : string) : list string :=
  match s with
  | EmptyString => [EmptyString]
  | String c s' =>
      if Ascii.eqb c sep then EmptyString :: split sep s'
      else match split sep s' with
           | [] => [String c EmptyString]
           | w :: ws => String c w :: ws
           end
  end.

Definition digit (c : ascii) : option Z :=
  let n := nat_of_ascii c in
  if ((48 <=? n)%nat && (n <=? 57)%nat)%bool then Some (Z.of_nat (n - 48)) else None.

Fixpoint digits (s : string) (acc : Z) : option Z :=
  match s with
  | EmptyString => Some acc
  | String c s' => d ← digit c; digits s' (10 * acc + d)
  end.

Definition read_int (s : string) : option Z :=
  match s with
  | EmptyString => None
  | String "-" s' => if String.eqb s' "" then None else Z.opp <$> digits s' 0
  | _ => digits s 0
  end.

(** A date as year, month and day. *)
Definition date : Type := Z * Z * Z.

Definition read_date (s : string) : option date :=
  match split "-" s with
  | [y; m; d] =>
      if ((String.length y =? 4)%nat && (String.length m =? 2)%nat &&
          (String.length d =? 2)%nat)%bool
      then y ← digits y 0; m ← digits m 0; d ← digits d 0;
           if ((1 <=? m) && (m <=? 12) && (1 <=? d) && (d <=? 31))%bool
           then Some (y, m, d) else None
      else None
  | _ => None
  end.

Definition field (s : string) : value Z date :=
  if String.eqb s "" then VNull else VStr s.

Fixpoint pad {X} (n : nat) (x : X) (l : list X) : list X :=
  match n with
  | O => []
  | S n' => match l with
            | [] => x :: pad n' x []
            | y :: l' => y :: pad n' x l'
            end
  end.

Definition lines (text : string) : list string :=
  filter (fun l => l ≠ EmptyString) (split (ascii_of_nat 10) text).

Definition tokenizer (sep text : string) : result (RawTable Z date) :=
  match sep, lines text with
  | String c EmptyString, h :: rest =>
      let names := split c h in
      let recs := split c <$> rest in
      if forallb (fun r => (length r <=? length names)%nat) recs
      then Ok {| header := names;
                 records := (fun r => pad (length names) VNull (field <$> r)) <$> recs |}
      else Raise (ParserError "Error tokenizing data")
  | _, _ => Raise (ParserError "No columns to parse from file")
  end.

#[global] Instance pandas : Pandas Z date := {|
  tokenize := tokenizer;
  parse_num := read_int;
  parse_time := read_date;
  num_to_time := fun n => if ((0 <=? n) && (n <? 86400000000000))%bool
                          then Some (1970, 1, 1) else None
|}.

Definition umal_config : Config.t :=
  {| Config.model := "gru"; Config.dataset := "camels_cl";
     Config.dynamic_inputs := ["p"; "t"]; Config.static_inputs := [];
     Config.hydroatlas_attributes := ["area"]; Config.camels_attributes := [];
     Config.use_basin_id_encoding := true; Config.number_of_basins := 3;
     Config.head := "UMal"; Config.hidden_size := 4;
     Config.output_dropout := 2 # 5;
     Config.use_frequencies := []; Config.data_dir := ["data"] |}.


Definition x_d : Tensor3 Z :=
  {| shape3 := (2, 3, 2)%nat;
     data3 := [[[1; 2]; [3; 4]; [5; 6]]; [[7; 8]; [9; 10]; [11; 12]]] |}.

Definition x_s : Tensor2 Z := {| shape2 := (2, 1)%nat; data2 := [[100]; [200]] |}.

Definition x_one_hot : Tensor2 Z := {| shape2 := (2, 2)%nat; data2 := [[1; 0]; [0; 1]] |}.

Definition batch : gmap string (Tensor Z) :=
  {[ "x_d" := Rank3 x_d; "x_s" := Rank2 x_s; "x_one_hot" := Rank2 x_one_hot ]}.


(** A configuration whose inputs are those of [batch]: two dynamic inputs,
    one static input and a one-hot encoding of two basins. *)
Definition batch_config : Config.t :=
  {| Config.model := "gru"; Config.dataset := "camels_cl";
     Config.dynamic_inputs := ["p"; "t"]; Config.static_inputs := ["elev"];
     Config.hydroatlas_attributes := []; Config.camels_attributes := [];
     Config.use_basin_id_encoding := true; Config.number_of_basins := 2;
     Config.head := "regression"; Config.hidden_size := 4;
     Config.output_dropout := 2 # 5;
     Config.use_frequencies := ["1D"]; Config.data_dir := ["data"] |}.

Definition batch_model : GRU.t Z :=
  {| GRU.gru := mk_nnGRU 5 4; GRU.dropout := mk_nnDropout (2 # 5); GRU.head := 1%nat |}.


Definition two_frequencies : Config.t :=
  {| Config.model := "gru"; Config.dataset := "hourly_camels_us";
     Config.dynamic_inputs := ["p"; "t"]; Config.static_inputs := [];
     Config.hydroatlas_attributes := []; Config.camels_attributes := [];
     Config.use_basin_id_encoding := false; Config.number_of_basins := 2;
     Config.head := "regression"; Config.hidden_size := 4;
     Config.output_dropout := 2 # 5;
     Config.use_frequencies := ["1D"; "1H"]; Config.data_dir := ["data"] |}.


(** A data directory that was never preprocessed: only the attributes file
    is there. *)
Definition attributes_text : string :=
  "gauge_id" +:+ tab +:+ "1001001" +:+ tab +:+ "1001002" +:+ tab +:+ "1001003" +:+ "
" +:+ "gauge_name" +:+ tab +:+ "Rio Caquena" +:+ tab +:+ "Rio Colpacagua" +:+ tab +:+ "Rio Lauca" +:+ "
" +:+ "area" +:+ tab +:+ "467" +:+ tab +:+ "403" +:+ tab +:+ "2301" +:+ "
" +:+ "record_period_start" +:+ tab +:+ "1976-09-07" +:+ tab +:+ "1982-05-06" +:+ tab +:+ "1963-11-18" +:+ "
" +:+ "record_period_end" +:+ tab +:+ "2017-07-31" +:+ tab +:+ "2017-07-31" +:+ tab +:+ "2018-03-09" +:+ "
".

Definition raw_world : world :=
  {| fs := {[ ["data"] := Directory;
              ["data"; "1_CAMELScl_attributes.txt"] := File attributes_text ]};
     default_basins := [];
     trace := [] |}.

(** The same directory after preprocessing, with the file of one basin. *)
Definition preprocessed_world : world :=
  {| fs := {[ ["data"] := Directory;
              ["data"; "1_CAMELScl_attributes.txt"] := File attributes_text;
              ["data"; "preprocessed"] := Directory;
              ["data"; "preprocessed"; "1001001.csv"] :=
                File ("date,precip_cr2met,streamflow_mm
1990-01-01,0,12
1990-01-02,3,14
") ]};
     default_basins := [];
     trace := [] |}.

Definition no_attributes : CamelsCL :=
  {| cfg := batch_config; basins := ["1001001"; "1001003"] |}.


Definition attributes_config : Config.t :=
  {| Config.model := "gru"; Config.dataset := "camels_cl";
     Config.dynamic_inputs := ["precip_cr2met"]; Config.static_inputs := [];
     Config.hydroatlas_attributes := []; Config.camels_attributes := ["area"; "gauge_name"];
     Config.use_basin_id_encoding := false; Config.number_of_basins := 3;
     Config.head := "regression"; Config.hidden_size := 4;
     Config.output_dropout := 2 # 5;
     Config.use_frequencies := []; Config.data_dir := ["data"] |}.

Definition two_attributes : CamelsCL :=
  {| cfg := attributes_config; basins := ["1001001"; "1001003"] |}.


(** An attributes file in which one basin has no parseable start of its
    record period. *)
Definition unknown_start_text : string :=
  "gauge_id" +:+ tab +:+ "1001001" +:+ tab +:+ "1001002" +:+ "
" +:+ "gauge_name" +:+ tab +:+ "Rio Caquena" +:+ tab +:+ "Rio Colpacagua" +:+ "
" +:+ "record_period_start" +:+ tab +:+ "1976-09-07" +:+ tab +:+ "unknown" +:+ "
" +:+ "record_period_end" +:+ tab +:+ "2017-07-31" +:+ tab +:+ "2017-07-31" +:+ "
".

Definition unknown_start_world : world :=
  {| fs := {[ ["data"] := Directory;
              ["data"; "1_CAMELScl_attributes.txt"] := File unknown_start_text ]};
     default_basins := [];
     trace := [] |}.


(** The end-to-end scenario: two dynamic inputs, nothing else, a regression
    head, and a batch of four sequences of ten steps. *)
Definition scenario_config : Config.t :=
  {| Config.model := "gru"; Config.dataset := "camels_cl";
     Config.dynamic_inputs := ["p"; "t"]; Config.static_inputs := [];
     Config.hydroatlas_attributes := []; Config.camels_attributes := [];
     Config.use_basin_id_encoding := false; Config.number_of_basins := 3;
     Config.head := "regression"; Config.hidden_size := 4;
     Config.output_dropout := 2 # 5;
     Config.use_frequencies := []; Config.data_dir := ["data"] |}.

Definition scenario_batch : gmap string (Tensor Z) :=
  {[ "x_d" := Rank3 {| shape3 := (4, 10, 2)%nat;
                       data3 := replicate 4 (replicate 10 [1; 2]) |} ]}.


#[global] Instance datasets : Datasetzoo := {|
  Features := gmap string (DataFrame Z date);
  IdToInt := gmap string Z;
  Scaler := gmap string (list Z);
  BaseDataset := DatasetClass.t * list string;
  construct_dataset := fun c args =>
    Ok (c, from_option (fun b => [b]) [] (DatasetArgs.basin args))
|}.

Definition camels_cl_args : DatasetArgs.t (gmap string (DataFrame Z date)) (gmap string Z)
                              (gmap string (list Z)) :=
  DatasetArgs.mk attributes_config true "train" (Some "1001001") [] ∅ ∅.

(** A batch with a key the model does not know, one without [x_d], and one
    whose static input has three rows for a batch of two. *)
Definition batch_with_target : gmap string (Tensor Z) :=
  <[ "y" := Rank3 {| shape3 := (2, 3, 1)%nat;
                     data3 := [[[0]; [0]; [0]]; [[1]; [1]; [1]]] |} ]> batch.

Definition batch_without_x_d : gmap string (Tensor Z) :=
  {[ "x_s" := Rank2 x_s; "x_one_hot" := Rank2 x_one_hot ]}.

Definition x_s_three_rows : Tensor2 Z :=
  {| shape2 := (3, 1)%nat; data2 := [[100]; [200]; [300]] |}.

Definition batch_mismatched : gmap string (Tensor Z) :=
  {[ "x_d" := Rank3 x_d; "x_s" := Rank2 x_s_three_rows ]}.

Definition unknown_model : Config.t :=
  {| Config.model := "GRU"; Config.dataset := "camels_de";
     Config.dynamic_inputs := ["p"; "t"]; Config.static_inputs := [];
     Config.hydroatlas_attributes := []; Config.camels_attributes := [];
     Config.use_basin_id_encoding := false; Config.number_of_basins := 2;
     Config.head := "regression"; Config.hidden_size := 4;
     Config.output_dropout := 2 # 5;
     Config.use_frequencies := ["1D"; "1H"]; Config.data_dir := ["data"] |}.

Definition multi_frequency_model : Config.t :=
  {| Config.model := "mtslstm"; Config.dataset := "hourly_camels_us";
     Config.dynamic_inputs := ["p"; "t"]; Config.static_inputs := [];
     Config.hydroatlas_attributes := []; Config.camels_attributes := [];
     Config.use_basin_id_encoding := false; Config.number_of_basins := 2;
     Config.head := "regression"; Config.hidden_size := 4;
     Config.output_dropout := 2 # 5;
     Config.use_frequencies := ["1D"; "1H"]; Config.data_dir := ["data"] |}.

(** A dataset object that asks for an attribute the file does not have. *)
Definition missing_attribute_config : Config.t :=
  {| Config.model := "gru"; Config.dataset := "camels_cl";
     Config.dynamic_inputs := ["precip_cr2met"]; Config.static_inputs := [];
     Config.hydroatlas_attributes := []; Config.camels_attributes := ["area"; "slope_mean"];
     Config.use_basin_id_encoding := false; Config.number_of_basins := 3;
     Config.head := "regression"; Config.hidden_size := 4;
     Config.output_dropout := 2 # 5;
     Config.use_frequencies := []; Config.data_dir := ["data"] |}.

Definition missing_attribute : CamelsCL :=
  {| cfg := missing_attribute_config; basins := ["1001003"; "9999999"] |}.


(** A machine on which nothing was downloaded. *)
Definition empty_world : world :=
  {| fs := ∅; default_basins := []; trace := [] |}.


(** The text of the basin file of [preprocessed_world]. *)
Definition basin_text : string :=
  "date,precip_cr2met,streamflow_mm
1990-01-01,0,12
1990-01-02,3,14
".


(** An attributes file that lists [record_period_start] twice, with valid
    dates throughout. *)
Definition repeated_start_text : string :=
  "gauge_id" +:+ tab +:+ "1001001" +:+ tab +:+ "1001002" +:+ "
" +:+ "record_period_start" +:+ tab +:+ "1976-09-07" +:+ tab +:+ "1982-05-06" +:+ "
" +:+ "record_period_start" +:+ tab +:+ "1976-09-07" +:+ tab +:+ "1982-05-06" +:+ "
" +:+ "record_period_end" +:+ tab +:+ "2017-07-31" +:+ tab +:+ "2017-07-31" +:+ "
".

Definition repeated_start_world : world :=
  {| fs := {[ ["data"] := Directory;
              ["data"; "1_CAMELScl_attributes.txt"] := File repeated_start_text ]};
     default_basins := [];
     trace := [] |}.

End Fixture.

(** * Properties of the model adapter *)

Section StrFacts.

Lemma lower_ascii_letter (c l : ascii) :
  l ∈ ["u"; "m"; "a"; "l"]%char ->
  Str.lower_ascii c = l -> c = l \/ c = Str.upper_ascii l.
Proof.
  intros Hl Hc.
  assert (Hb : bool_decide (c = l \/ c = Str.upper_ascii l) = true);
    [| by apply bool_decide_eq_true in Hb].
  repeat (apply elem_of_cons in Hl as [-> | Hl]); [.. | by apply elem_of_nil in Hl];
    destruct c as [[] [] [] [] [] [] [] []]; vm_compute in Hc; try discriminate Hc;
    reflexivity.
Qed.

Lemma lower_umal_spellings (h : string) :
  Str.lower h = "umal" <-> h ∈ Str.spellings "umal".
Proof.
  split.
  - destruct h as [| c1 [| c2 [| c3 [| c4 [| c5 h]]]]]; simpl; try discriminate.
    intros Heq. injection Heq as H1 H2 H3 H4.
    apply lower_ascii_letter in H1; [| by apply (bool_decide_unpack _)].
    apply lower_ascii_letter in H2; [| by apply (bool_decide_unpack _)].
    apply lower_ascii_letter in H3; [| by apply (bool_decide_unpack _)].
    apply lower_ascii_letter in H4; [| by apply (bool_decide_unpack _)].
    destruct H1 as [-> | ->], H2 as [-> | ->], H3 as [-> | ->], H4 as [-> | ->];
      apply (bool_decide_unpack _); vm_compute; exact I.
  - intros Hin. vm_compute in Hin.
    repeat (apply elem_of_cons in Hin as [-> | Hin]); try reflexivity.
    by apply elem_of_nil in Hin.
Qed.

End StrFacts.

Section InputWidth.
Context {A : Type} `{Torch A} `{HeadFactory A}.

Lemma calc_input_size_sum (cfg : Config.t) :
  GRU.calc_input_size cfg = expected_width cfg.
Proof.
  unfold GRU.calc_input_size, expected_width.
  rewrite !length_app, !Nat2Z.inj_add.
  pose proof (lower_umal_spellings (Config.head cfg)) as Hs.
  destruct (String.eqb_spec (Str.lower (Config.head cfg)) "umal") as [Heq | Hne].
  - rewrite bool_decide_eq_true_2 by (by apply Hs).
    destruct (Config.use_basin_id_encoding cfg); lia.
  - rewrite bool_decide_eq_false_2 by (by rewrite <- Hs).
    destruct (Config.use_basin_id_encoding cfg); lia.
Qed.

(** C1. Whenever the constructor [GRU.__init__] builds a model from a
    configuration, the input width of its recurrent cell is the number of
    dynamic inputs plus the number of static inputs plus the number of
    hydroatlas attributes plus the number of camels attributes, plus
    [number_of_basins] when [use_basin_id_encoding] is set, plus one exactly
    when the head name is "umal" written in any mix of upper and lower case;
    this holds for both values of the flag and every head name. *)
Theorem constructed_cell_input_width (cfg : Config.t) (m : GRU.t A) :
  GRU.__init__ cfg = Ok m ->
  input_size (GRU.gru m) =
    Z.of_nat (length (Config.dynamic_inputs cfg)) +
    Z.of_nat (length (Config.static_inputs cfg)) +
    Z.of_nat (length (Config.hydroatlas_attributes cfg)) +
    Z.of_nat (length (Config.camels_attributes cfg)) +
    (if Config.use_basin_id_encoding cfg then Config.number_of_basins cfg else 0) +
    (if bool_decide (Config.head cfg ∈ Str.spellings "umal") then 1 else 0).
Proof.
  unfold GRU.__init__. intros Hinit.
  destruct (get_head cfg (Config.hidden_size cfg) (output_size cfg)) as [h | e];
    simpl in Hinit; [| discriminate].
  injection Hinit as <-. simpl.
  apply calc_input_size_sum.
Qed.

End InputWidth.

Lemma constructed_cell_input_width_witness :
  exists m : GRU.t Z,
    GRU.__init__ Fixture.umal_config = Ok m /\ input_size (GRU.gru m) = 7.
Proof.
  eexists. split; [reflexivity |].
  apply (constructed_cell_input_width Fixture.umal_config). reflexivity.
Defined.

(** * Shapes and rows of the tensor operations *)

Section TensorFacts.
Context {A : Type}.
Implicit Types (x : Tensor3 A) (s : Tensor2 A).

Lemma wf3_filled x d0 d1 d2 :
  shape3 x = (d0, d1, d2) -> wf3 x = true <-> filled3 (data3 x) d0 d1 d2.
Proof.
  intros Hs. unfold wf3, filled3. rewrite Hs.
  rewrite andb_true_iff, Nat.eqb_eq, forallb_forall, Forall_forall.
  split; intros [Hl Hall]; (split; [done |]); intros m Hm.
  - apply list_elem_of_In, Hall in Hm.
    apply andb_true_iff in Hm as [H1 H2]. apply Nat.eqb_eq in H1. split; [done |].
    apply Forall_forall. intros r Hr. rewrite forallb_forall in H2.
    apply Nat.eqb_eq, H2. by apply list_elem_of_In.
  - apply list_elem_of_In, Hall in Hm. destruct Hm as [H1 H2].
    apply andb_true_iff. split; [by apply Nat.eqb_eq |].
    apply forallb_forall. intros r Hr. apply Nat.eqb_eq.
    rewrite Forall_forall in H2. by apply H2, list_elem_of_In.
Qed.

Lemma wf2_filled s d0 d1 :
  shape2 s = (d0, d1) -> wf2 s = true <-> filled2 (data2 s) d0 d1.
Proof.
  intros Hs. unfold wf2, filled2. rewrite Hs.
  rewrite andb_true_iff, Nat.eqb_eq, forallb_forall, Forall_forall.
  split; intros [Hl Hall]; (split; [done |]); intros r Hr.
  - by apply Nat.eqb_eq, Hall, list_elem_of_In.
  - by apply Nat.eqb_eq, Hall, list_elem_of_In.
Qed.


Lemma transpose01_shape x d0 d1 d2 :
  shape3 x = (d0, d1, d2) -> shape3 (transpose01 x) = (d1, d0, d2).
Proof. intros Hs. unfold transpose01. by rewrite Hs. Qed.


Lemma transpose01_wf x d0 d1 d2 :
  shape3 x = (d0, d1, d2) -> wf3 x = true -> wf3 (transpose01 x) = true.
Proof.
  intros Hs Hwf.
  apply (wf3_filled _ _ _ _ Hs) in Hwf as [Hl Hall].
  apply (wf3_filled _ d1 d0 d2 (transpose01_shape _ _ _ _ Hs)).
  unfold transpose01. rewrite Hs. simpl. split.
  - by rewrite length_map, length_seq.
  - apply Forall_forall. intros m Hm.
    apply list_elem_of_fmap in Hm as (j & -> & Hj).
    apply elem_of_seq in Hj.
    split; [by rewrite length_map |].
    apply Forall_forall. intros r Hr.
    apply list_elem_of_fmap in Hr as (m & -> & Hm).
    rewrite Forall_forall in Hall. destruct (Hall m Hm) as [Hlen Hrows].
    rewrite Forall_forall in Hrows. apply Hrows.
    rewrite nth_lookup. destruct (m !! j) as [r |] eqn:Hr; simpl.
    + by eapply list_elem_of_lookup_2.
    + apply lookup_ge_None in Hr. lia.
Qed.

Lemma concat_replicate_singleton {X} (n : nat) (m : X) :
  concat (replicate n [m]) = replicate n m.
Proof. induction n as [| n IH]; simpl; [done | by rewrite IH]. Qed.

(** [s.unsqueeze(0).repeat(n, 1, 1)] shows [s] at each of the [n] leading
    positions. *)
Lemma broadcast_shape s n d0 d1 :
  shape2 s = (d0, d1) -> shape3 (repeat0 n (unsqueeze0 s)) = (n, d0, d1).
Proof.
  intros Hs. unfold repeat0, unsqueeze0. rewrite Hs. simpl.
  by rewrite Nat.mul_1_r.
Qed.

Lemma broadcast_data s n :
  data3 (repeat0 n (unsqueeze0 s)) = replicate n (data2 s).
Proof.
  unfold repeat0, unsqueeze0. destruct (shape2 s) as [d0 d1]. simpl.
  apply concat_replicate_singleton.
Qed.


Lemma broadcast_wf s n d0 d1 :
  shape2 s = (d0, d1) -> wf2 s = true -> wf3 (repeat0 n (unsqueeze0 s)) = true.
Proof.
  intros Hs Hwf. apply (wf2_filled _ _ _ Hs) in Hwf as [Hl Hall].
  apply (wf3_filled _ _ _ _ (broadcast_shape _ n _ _ Hs)).
  rewrite broadcast_data. split; [by rewrite length_replicate |].
  apply Forall_replicate. by split.
Qed.

(** Concatenation on the last axis of two tensors whose leading axes agree:
    it succeeds, and every feature row is the row of the first followed by
    the row of the second. *)
Lemma cat2_ok (a b : Tensor3 A) d0 d1 da db :
  shape3 a = (d0, d1, da) -> shape3 b = (d0, d1, db) ->
  wf3 a = true -> wf3 b = true ->
  exists c, cat2 a b = Ok c /\ shape3 c = (d0, d1, (da + db)%nat) /\ wf3 c = true /\
            forall i j, (i < d0)%nat -> (j < d1)%nat -> row3 c i j = row3 a i j ++ row3 b i j.
Proof.
  intros Ha Hb Hwa Hwb.
  apply (wf3_filled _ _ _ _ Ha) in Hwa as [Hla Halla].
  apply (wf3_filled _ _ _ _ Hb) in Hwb as [Hlb Hallb].
  unfold cat2. rewrite Ha, Hb, !Nat.eqb_refl. simpl.
  eexists. split; [reflexivity |]. split; [reflexivity |].
  rewrite Forall_lookup in Halla, Hallb.
  split.
  - match goal with
    | |- wf3 ?c = true => apply (wf3_filled c d0 d1 (da + db)%nat eq_refl)
    end. simpl. split.
    + rewrite length_zip_with. lia.
    + apply Forall_lookup. intros i m Hm.
      apply lookup_zip_with_Some in Hm as (ma & mb & -> & Hma & Hmb).
      destruct (Halla _ _ Hma) as [Hlma Hra], (Hallb _ _ Hmb) as [Hlmb Hrb].
      split; [rewrite length_zip_with; lia |].
      rewrite Forall_lookup in Hra, Hrb.
      apply Forall_lookup. intros j r Hr.
      apply lookup_zip_with_Some in Hr as (ra & rb & -> & Hra' & Hrb').
      rewrite length_app. by rewrite (Hra _ _ Hra'), (Hrb _ _ Hrb').
  - intros i j Hi Hj. unfold row3. simpl.
    destruct (lookup_lt_is_Some_2 (data3 a) i) as [ma Hma]; [lia |].
    destruct (lookup_lt_is_Some_2 (data3 b) i) as [mb Hmb]; [lia |].
    destruct (Halla _ _ Hma) as [Hlma _], (Hallb _ _ Hmb) as [Hlmb _].
    destruct (lookup_lt_is_Some_2 ma j) as [ra Hra]; [lia |].
    destruct (lookup_lt_is_Some_2 mb j) as [rb Hrb]; [lia |].
    rewrite !(nth_lookup _ i), lookup_zip_with, Hma, Hmb. simpl.
    rewrite !(nth_lookup _ j), lookup_zip_with, Hra, Hrb. done.
Qed.

End TensorFacts.

(** * The forward pass *)

Section ForwardInputs.
Context {A : Type}.

Lemma getitem_rank3 (data : gmap string (Tensor A)) (k : string) (x : Tensor3 A) :
  data !! k = Some (Rank3 x) -> getitem data k ≫= as_rank3 = Ok x.
Proof. intros Hk. unfold getitem. by rewrite Hk. Qed.

(** The tensor handed to the recurrent cell exists and fills its shape. *)
Lemma forward_inputs_shape (data : gmap string (Tensor A)) (x_d : Tensor3 A)
    (x_s x_one_hot : option (Tensor2 A)) (B T F : nat) :
  data !! "x_d" = Some (Rank3 x_d) ->
  data !! "x_s" = Rank2 <$> x_s ->
  data !! "x_one_hot" = Rank2 <$> x_one_hot ->
  wf3 x_d = true -> shape3 x_d = (B, T, F) ->
  (forall s, x_s = Some s -> wf2 s = true /\ (shape2 s).1 = B) ->
  (forall o, x_one_hot = Some o -> wf2 o = true /\ (shape2 o).1 = B) ->
  exists x,
    GRU.forward_inputs data = Ok x /\
    wf3 x = true /\
    shape3 x = (T, B, (F + (opt_width x_s + opt_width x_one_hot))%nat).
Proof.
  intros Hd Hs Ho Hwf Hshape Hfs Hfo.
  unfold GRU.forward_inputs. rewrite (getitem_rank3 _ _ _ Hd). simpl.
  rewrite Hs, Ho, (transpose01_shape _ _ _ _ Hshape). simpl.
  pose proof (transpose01_shape _ _ _ _ Hshape) as Htsh.
  pose proof (transpose01_wf _ _ _ _ Hshape Hwf) as Htwf.
  assert (Hbroadcast : forall s : Tensor2 A, wf2 s = true -> (shape2 s).1 = B ->
            shape3 (repeat0 T (unsqueeze0 s)) = (T, B, (shape2 s).2) /\
            wf3 (repeat0 T (unsqueeze0 s)) = true).
  { intros s Hws Hbs. destruct (shape2 s) as [bs ws] eqn:Hss. simpl in *. subst bs.
    split; [by apply broadcast_shape | by eapply broadcast_wf]. }
  destruct x_s as [s |], x_one_hot as [o |]; simpl.
  - destruct (Hfs s eq_refl) as [Hws Hbs], (Hfo o eq_refl) as [Hwo Hbo].
    destruct (Hbroadcast s Hws Hbs) as [Hs1 Hs2], (Hbroadcast o Hwo Hbo) as [Ho1 Ho2].
    destruct (cat2_ok _ _ _ _ _ _ Hs1 Ho1 Hs2 Ho2) as (so & Hso1 & Hso2 & Hso3 & _).
    rewrite Hso1.
    destruct (cat2_ok _ _ _ _ _ _ Htsh Hso2 Htwf Hso3) as (x & Hx1 & Hx2 & Hx3 & _).
    by exists x.
  - destruct (Hfs s eq_refl) as [Hws Hbs].
    destruct (Hbroadcast s Hws Hbs) as [Hs1 Hs2].
    destruct (cat2_ok _ _ _ _ _ _ Htsh Hs1 Htwf Hs2) as (x & Hx1 & Hx2 & Hx3 & _).
    exists x. by rewrite Nat.add_0_r.
  - destruct (Hfo o eq_refl) as [Hwo Hbo].
    destruct (Hbroadcast o Hwo Hbo) as [Ho1 Ho2].
    destruct (cat2_ok _ _ _ _ _ _ Htsh Ho1 Htwf Ho2) as (x & Hx1 & Hx2 & Hx3 & _).
    by exists x.
  - exists (transpose01 x_d). by rewrite !Nat.add_0_r.
Qed.


End ForwardInputs.


Section Forward.
Context {A : Type} `{Torch A} `{!TorchShapes A} `{HeadFactory A} `{!HeadContract A}.

(** C3. For a well-shaped input mapping (a sequence of at least one time
    step, which the recurrent cell requires) whose feature width is the input
    width of the recurrent cell, [forward] returns a mapping that has the
    key [y_hat]; the entry is the one the head produces from the dropout of
    the cell's whole output sequence (made batch-first), and it is a tensor
    whose two leading axes are the batch size and the sequence length of
    [x_d], so it holds a prediction for every time step. *)
Theorem forward_returns_y_hat (self : GRU.t A) (data : gmap string (Tensor A))
    (x_d : Tensor3 A) (x_s x_one_hot : option (Tensor2 A)) (B T F : nat) :
  data !! "x_d" = Some (Rank3 x_d) ->
  data !! "x_s" = Rank2 <$> x_s ->
  data !! "x_one_hot" = Rank2 <$> x_one_hot ->
  wf3 x_d = true -> shape3 x_d = (B, T, F) ->
  (forall s, x_s = Some s -> wf2 s = true /\ (shape2 s).1 = B) ->
  (forall o, x_one_hot = Some o -> wf2 o = true /\ (shape2 o).1 = B) ->
  (0 < T)%nat ->
  Z.of_nat (F + (opt_width x_s + opt_width x_one_hot)) = input_size (GRU.gru self) ->
  exists pred x gru_output h_n y n,
    GRU.forward self data = Ok pred /\
    GRU.forward_inputs data = Ok x /\
    nnGRU_forward (GRU.gru self) x = Ok (gru_output, h_n) /\
    shape3 gru_output = (T, B, Z.to_nat (hidden_size (GRU.gru self))) /\
    pred !! "y_hat" =
      head_forward (GRU.head self)
        (nnDropout_forward (GRU.dropout self) (transpose01 gru_output)) !! "y_hat" /\
    pred !! "y_hat" = Some (Rank3 y) /\
    wf3 y = true /\
    shape3 y = (B, T, n).
Proof.
  intros Hd Hs Ho Hwf Hshape Hfs Hfo HT Hwidth.
  destruct (forward_inputs_shape data x_d x_s x_one_hot B T F Hd Hs Ho Hwf Hshape Hfs Hfo)
    as (x & Hx & Hxwf & Hxshape).
  destruct (nnGRU_forward_shape (GRU.gru self) x _ _ _ Hxwf Hxshape HT Hwidth)
    as (out & h_n & Hrun & Hout_wf & Hhn_wf & Hout_shape & Hhn_shape).
  pose proof (transpose01_wf _ _ _ _ Hout_shape Hout_wf) as Htwf.
  pose proof (transpose01_shape _ _ _ _ Hout_shape) as Htshape.
  destruct (nnDropout_forward_shape (GRU.dropout self) _ Htwf) as [Hdwf Hdshape].
  rewrite Htshape in Hdshape.
  destruct (head_forward_y_hat (GRU.head self) _ _ _ _ Hdwf Hdshape)
    as (y & n & Hy & Hywf & Hyshape).
  exists (head_forward (GRU.head self)
            (nnDropout_forward (GRU.dropout self) (transpose01 out))
          ∪ {[ "h_n" := Rank3 (transpose01 h_n) ]}), x, out, h_n, y, n.
  assert (Hlookup : forall m : gmap string (Tensor A),
            (head_forward (GRU.head self)
               (nnDropout_forward (GRU.dropout self) (transpose01 out)) ∪ m) !! "y_hat"
            = Some (Rank3 y)).
  { intros m. by apply lookup_union_Some_l. }
  repeat split; try done.
  - unfold GRU.forward. rewrite Hx. simpl. rewrite Hrun. reflexivity.
  - by rewrite Hlookup, Hy.
Qed.

End Forward.

(** The reference cell, dropout and head meet the shape contracts. *)
#[global] Instance fixture_torch_shapes : TorchShapes Z.
Proof.
  split.
  - intros cell x T B W Hwf Hs HT Hw. simpl. unfold Fixture.cell_forward.
    rewrite Hs, Hwf, Hw, Z.eqb_refl.
    destruct (Nat.eqb_spec T 0) as [-> | _]; [lia |]. simpl.
    eexists _, _. split; [reflexivity |].
    split; [| split]; [| | done].
    + match goal with
      | |- wf3 ?c = true => apply (wf3_filled c _ _ _ eq_refl)
      end. simpl. split; [by rewrite length_map, length_seq |].
      apply Forall_fmap, Forall_forall. intros t _. simpl.
      split; [by rewrite length_map, length_seq |].
      apply Forall_fmap, Forall_forall. intros b _. simpl.
      by rewrite length_replicate.
    + match goal with
      | |- wf3 ?c = true => apply (wf3_filled c _ _ _ eq_refl)
      end. simpl. split; [done |].
      apply Forall_singleton.
      split; [by rewrite length_map, length_seq |].
      apply Forall_fmap, Forall_forall. intros b _. simpl.
      by rewrite length_replicate.
  - intros d x Hwf. done.
Qed.

#[global] Instance fixture_head_contract : HeadContract Z.
Proof.
  split. intros h x B T Hd Hwf Hs. simpl. unfold Fixture.linear_head. rewrite Hs.
  apply (wf3_filled _ _ _ _ Hs) in Hwf as [Hl Hall].
  eexists _, h. split; [apply lookup_singleton_eq |].
  split; [| done].
  match goal with
  | |- wf3 ?c = true => apply (wf3_filled c _ _ _ eq_refl)
  end. simpl. split; [by rewrite length_map |].
  apply Forall_fmap. eapply Forall_impl; [exact Hall |].
  intros m [Hm _]. simpl. split; [by rewrite length_map |].
  apply Forall_fmap, Forall_forall. intros r _. simpl. by rewrite length_replicate.
Qed.

Lemma forward_returns_y_hat_witness :
  GRU.__init__ Fixture.batch_config = Ok Fixture.batch_model /\
  exists pred y n,
    GRU.forward Fixture.batch_model Fixture.batch = Ok pred /\
    pred !! "y_hat" = Some (Rank3 y) /\ shape3 y = (2, 3, n)%nat.
Proof.
  split; [reflexivity |].
  destruct (forward_returns_y_hat Fixture.batch_model Fixture.batch Fixture.x_d
              (Some Fixture.x_s) (Some Fixture.x_one_hot) 2 3 2)
    as (pred & x & out & h_n & y & n & Hrun & _ & _ & _ & _ & Hy & _ & Hshape).
  - reflexivity.
  - reflexivity.
  - reflexivity.
  - reflexivity.
  - reflexivity.
  - intros s [= <-]. split; reflexivity.
  - intros o [= <-]. split; reflexivity.
  - lia.
  - reflexivity.
  - exists pred, y, n. split; [exact Hrun |]. split; [exact Hy | exact Hshape].
Defined.

(** The end-to-end scenario of the specification on the reference
    instances: input width 2, [y_hat] of shape [(4, 10, _)] and [h_n] of
    shape [(4, 1, hidden_size)]. *)
Example end_to_end_scenario :
  exists m pred y h,
    GRU.__init__ Fixture.scenario_config = Ok m /\
    input_size (GRU.gru m) = 2 /\
    GRU.forward m Fixture.scenario_batch = Ok pred /\
    pred !! "y_hat" = Some (Rank3 y) /\ shape3 y = (4, 10, 1)%nat /\
    pred !! "h_n" = Some (Rank3 h) /\ shape3 h = (4, 1, 4)%nat.
Proof.
  eexists _, _, _, _. split; [reflexivity |]. split; [reflexivity |].
  split; [by vm_compute |]. split; [by vm_compute |]. split; [reflexivity |].
  split; [by vm_compute | reflexivity].
Qed.

(** * Substrings *)

Section Substrings.

Lemma prefix_append (n b : string) : String.prefix n (n +:+ b) = true.
Proof.
  induction n as [| c n IH]; simpl; [by destruct b |].
  destruct (ascii_dec c c); [exact IH | congruence].
Qed.

Lemma contains_prefix (n s : string) : String.prefix n s = true -> Str.contains n s = true.
Proof. intros Hp. destruct s; cbn [Str.contains]; by rewrite Hp. Qed.

Lemma contains_cons (n : string) (c : ascii) (s : string) :
  Str.contains n s = true -> Str.contains n (String c s) = true.
Proof. intros Hs. cbn [Str.contains]. rewrite Hs. apply orb_true_r. Qed.

Lemma contains_append_r (n a s : string) :
  Str.contains n s = true -> Str.contains n (a +:+ s) = true.
Proof.
  intros Hs. induction a as [| c a IH]; [exact Hs |].
  change (Str.contains n (String c (a +:+ s)) = true).
  apply contains_cons, IH.
Qed.

End Substrings.

(** * The registry *)

Section RegistryFacts.
Context `{Modelzoo}.

(** C7. For a configuration that names a model listed in
    [SINGLE_FREQ_MODELS] and has more than one entry in [use_frequencies],
    [get_model] raises a [ValueError] whose message says the model "does not
    support multiple frequencies", and the record of constructor calls is
    what it was before the call: no model class was instantiated. *)
Theorem get_model_rejects_multiple_frequencies (cfg : Config.t) (made : constructions) :
  Config.model cfg ∈ SINGLE_FREQ_MODELS ->
  (1 < length (Config.use_frequencies cfg))%nat ->
  exists msg,
    get_model cfg made = (Raise (ValueError msg), made) /\
    msg = "Model " +:+ Config.model cfg +:+ " does not support multiple frequencies." /\
    Str.contains "does not support multiple frequencies" msg = true.
Proof.
  intros Hsingle Hmany. eexists. split; [| split; [reflexivity |]].
  - unfold get_model.
    rewrite (bool_decide_eq_true_2 _ Hsingle), (bool_decide_eq_true_2 _ Hmany).
    reflexivity.
  - apply (contains_append_r _ "Model "), (contains_append_r _ (Config.model cfg)).
    reflexivity.
Qed.

End RegistryFacts.

Lemma get_model_rejects_multiple_frequencies_witness :
  exists msg,
    get_model Fixture.two_frequencies [] = (Raise (ValueError msg), []) /\
    msg = "Model gru does not support multiple frequencies.".
Proof.
  destruct (get_model_rejects_multiple_frequencies Fixture.two_frequencies [])
    as (msg & Hrun & Hmsg & _).
  - apply (bool_decide_unpack _). vm_compute. exact I.
  - simpl. lia.
  - exists msg. split; [exact Hrun | exact Hmsg].
Defined.

(** * The per-basin time series loader *)

Section Timeseries.
Context {num time : Type} `{EqDecision num, EqDecision time} `{Pandas num time}.

Lemma bind_run {S X Y} (c : M S X) (k : X -> M S Y) (s : S) :
  (c ≫= k) s = match c s with
               | (Ok x, s') => k x s'
               | (Raise e, s') => (Raise e, s')
               end.
Proof. reflexivity. Qed.

Lemma missing_msg_mentions_preprocessed (dir : Path) :
  Str.contains "preprocessed" (missing_preprocessed_msg dir) = true.
Proof. reflexivity. Qed.

Lemma missing_msg_ends_with_remediation (dir : Path) :
  missing_preprocessed_msg dir =
  "No preprocessed data directory found at " +:+ path_str dir +:+ ". " +:+ remediation_text.
Proof. reflexivity. Qed.

(** Without the [preprocessed] directory the loader raises its own
    [FileNotFoundError] after the directory test alone: no file is opened and
    the files are untouched. *)
Lemma load_timeseries_missing_dir (data_dir : Path) (basin : string) (w : world) :
  fs w !! (data_dir ++ ["preprocessed"]) ≠ Some Directory ->
  load_camels_cl_timeseries data_dir basin w =
    (Raise (FileNotFoundError None
              (missing_preprocessed_msg (data_dir ++ ["preprocessed"])) None),
     {| fs := fs w; default_basins := default_basins w;
        trace := trace w ++ [EvIsDir (data_dir ++ ["preprocessed"])] |}).
Proof.
  intros Hno. unfold load_camels_cl_timeseries. rewrite bind_run.
  unfold is_dir, log.
  destruct (fs w !! (data_dir ++ ["preprocessed"])) as [[| text] |] eqn:Hl;
    [congruence | reflexivity | reflexivity].
Qed.

(** C6. In a data directory that has no [preprocessed] subdirectory the
    loader raises a [FileNotFoundError] before any file is opened and
    without touching the files, and its message contains the word
    "preprocessed"; but the function it tells the reader to use,
    [preprocessed_camels_cl_dataset], is not the preprocessing function
    [preprocess_camels_cl_dataset]: the message does not contain that
    name. *)
Theorem missing_dir_message_misnames_function :
  exists msg,
    load_camels_cl_timeseries ["data"] "1001001" Fixture.raw_world =
      (Raise (FileNotFoundError None msg None),
       {| fs := fs Fixture.raw_world; default_basins := [];
          trace := [EvIsDir ["data"; "preprocessed"]] |}) /\
    Str.contains "preprocessed" msg = true /\
    Str.contains remediation_text msg = true /\
    Str.contains "preprocessed_camels_cl_dataset" msg = true /\
    Str.contains preprocess_function msg = false.
Proof.
  eexists. split.
  - apply load_timeseries_missing_dir.
    by vm_compute.
  - by vm_compute.
Qed.

Lemma prefix_append_quote (n x : string) :
  Str.contains "'" n = false -> String.prefix n (x +:+ "'") = String.prefix n x.
Proof.
  revert x. induction n as [| c n IH]; intros x Hq.
  - by destruct x.
  - cbn [Str.contains] in Hq. apply orb_false_iff in Hq as [Hc Hn].
    destruct x as [| d x].
    + simpl in *. destruct (ascii_dec "'" c) as [<- |]; [by destruct n |].
      destruct (ascii_dec c "'"); [congruence | done].
    + change (String.prefix (String c n) (String d (x +:+ "'")) =
              String.prefix (String c n) (String d x)).
      simpl. destruct (ascii_dec c d); [by apply IH | done].
Qed.

Lemma contains_append_quote (n x : string) :
  Str.contains "'" n = false -> Str.contains n (x +:+ "'") = Str.contains n x.
Proof.
  intros Hq. induction x as [| d x IH].
  - change (Str.contains n "'" = Str.contains n "").
    pose proof (prefix_append_quote n "" Hq) as Hp.
    change ("" +:+ "'") with "'" in Hp.
    cbn [Str.contains]. rewrite Hp.
    by destruct (String.prefix n "").
  - change (Str.contains n (String d (x +:+ "'")) = Str.contains n (String d x)).
    pose proof (prefix_append_quote n (String d x) Hq) as Hp.
    change (String d x +:+ "'") with (String d (x +:+ "'")) in Hp.
    cbn [Str.contains]. by rewrite IH, Hp.
Qed.

(** C10. When the [preprocessed] directory exists but the file of the basin
    does not, the directory test passes and the failure comes from opening
    the file: the operating system's [FileNotFoundError] (error number 2)
    for that file.  It is never the loader's own error; its text has neither
    the word "preprocessed" nor the remediation sentence, and the printed
    error shows the remediation sentence only if the file's own path spells
    it. *)
Theorem load_timeseries_missing_file (data_dir : Path) (basin : string) (w : world) :
  fs w !! (data_dir ++ ["preprocessed"]) = Some Directory ->
  fs w !! ((data_dir ++ ["preprocessed"]) ++ [basin +:+ ".csv"]) = None ->
  let basin_file := (data_dir ++ ["preprocessed"]) ++ [basin +:+ ".csv"] in
  let e := FileNotFoundError (Some 2) "No such file or directory"
             (Some (path_str basin_file)) in
  load_camels_cl_timeseries data_dir basin w =
    (Raise e,
     {| fs := fs w; default_basins := default_basins w;
        trace := trace w ++ [EvIsDir (data_dir ++ ["preprocessed"]); EvOpen basin_file] |}) /\
  (forall dir, e ≠ FileNotFoundError None (missing_preprocessed_msg dir) None) /\
  Str.contains "preprocessed" "No such file or directory" = false /\
  Str.contains remediation_text "No such file or directory" = false /\
  Str.contains remediation_text (exception_str e) =
    Str.contains remediation_text (path_str basin_file).
Proof.
  intros Hdir Hfile basin_file e. subst basin_file e.
  split; [| split; [| split; [| split]]].
  - unfold load_camels_cl_timeseries. rewrite bind_run. unfold is_dir.
    rewrite Hdir. cbn [negb].
    unfold read_csv. rewrite !bind_run. unfold read_text.
    cbn [fs log]. rewrite Hfile. unfold log. cbn [fs default_basins trace].
    by rewrite <- (app_assoc (trace w)).
  - intros dir. discriminate.
  - reflexivity.
  - reflexivity.
  - unfold exception_str, os_str.
    change ("[Errno 2] " +:+ "No such file or directory" +:+ ": '" +:+
            ?f +:+ "'")
      with ("[Errno 2] No such file or directory: '" +:+ (f +:+ "'")).
    generalize (path_str ((data_dir ++ ["preprocessed"]) ++ [basin +:+ ".csv"])).
    intros f.
    rewrite <- (contains_append_quote remediation_text f) by reflexivity.
    generalize (f +:+ "'"). intros g.
    cbn. by destruct g.
Qed.

End Timeseries.

Lemma load_timeseries_missing_file_witness :
  exists w',
    load_camels_cl_timeseries ["data"] "1001002" Fixture.preprocessed_world =
      (Raise (FileNotFoundError (Some 2) "No such file or directory"
                (Some "data/preprocessed/1001002.csv")), w') /\
    trace w' = [EvIsDir ["data"; "preprocessed"];
                EvOpen ["data"; "preprocessed"; "1001002.csv"]].
Proof.
  destruct (load_timeseries_missing_file (H := Fixture.pandas) ["data"] "1001002"
              Fixture.preprocessed_world) as (Hrun & _).
  - by vm_compute.
  - by vm_compute.
  - eexists. split; [exact Hrun | reflexivity].
Defined.

(** * Reading without writing *)

Section ReadOnly.

Lemma read_only_ret {X} (x : X) : read_only (mret x).
Proof. intros w. repeat split; done. Qed.

Lemma read_only_raise {X} (e : exception) : read_only (@raise world X e).
Proof. intros w. repeat split; done. Qed.

Lemma read_only_lift {X} (r : result X) : read_only (lift r).
Proof. intros w. repeat split; done. Qed.

Lemma read_only_bind {X Y} (c : M world X) (k : X -> M world Y) :
  read_only c -> (forall x, read_only (k x)) -> read_only (c ≫= k).
Proof.
  intros Hc Hk w. rewrite bind_run.
  destruct (Hc w) as (Hfs & Hdef & Hres).
  destruct (c w) as [[x | e] w1] eqn:Hcw; simpl in Hfs, Hdef, Hres.
  - destruct (Hk x w1) as (Hfs' & Hdef' & Hres').
    split; [congruence |]. split; [congruence |].
    intros w' Hw'1 Hw'2. rewrite bind_run.
    specialize (Hres w' Hw'1 Hw'2).
    destruct (Hc w') as (Hfs2 & Hdef2 & _).
    destruct (c w') as [r w1'] eqn:Hcw'. simpl in Hres, Hfs2, Hdef2. subst r.
    apply Hres'; congruence.
  - split; [done |]. split; [done |].
    intros w' Hw'1 Hw'2. rewrite bind_run.
    specialize (Hres w' Hw'1 Hw'2).
    destruct (c w') as [r w1'] eqn:Hcw'. simpl in Hres. by subst r.
Qed.

Lemma read_only_is_dir (p : Path) : read_only (is_dir p).
Proof.
  intros w. unfold is_dir. simpl. repeat split; try done.
  intros w' Hfs _. by rewrite Hfs.
Qed.

Lemma read_only_read_text (p : Path) : read_only (read_text p).
Proof.
  intros w. unfold read_text. simpl. repeat split; try done.
  intros w' Hfs _. by rewrite Hfs.
Qed.

Lemma read_only_default_basins :
  read_only (fun w : world => (Ok (default_basins w), w)).
Proof.
  intros w. simpl. repeat split; try done.
  intros w' _ Hdef. by rewrite Hdef.
Qed.

End ReadOnly.

Create HintDb read_only.

#[local] Hint Resolve read_only_ret read_only_raise read_only_lift
  read_only_is_dir read_only_read_text read_only_default_basins : read_only.

Ltac read_only_steps :=
  repeat first
    [ apply read_only_bind; [| intros ?]
    | progress eauto with read_only
    | match goal with
      | |- read_only (match ?x with _ => _ end) => destruct x
      | |- read_only (if ?b then _ else _) => destruct b
      end ].

Section Attributes.
Context {num time : Type} `{EqDecision num, EqDecision time} `{Pandas num time}.

Lemma read_only_read_csv (path : Path) (sep index_col : string) (dates : bool) :
  read_only (read_csv path sep index_col dates).
Proof. unfold read_csv. read_only_steps. Qed.

Lemma read_only_load_timeseries (data_dir : Path) (basin : string) :
  read_only (load_camels_cl_timeseries data_dir basin).
Proof.
  unfold load_camels_cl_timeseries. read_only_steps.
Qed.

Lemma read_only_load_attributes (data_dir : Path) (bs : option (list string)) :
  read_only (load_camels_cl_attributes data_dir bs).
Proof.
  unfold load_camels_cl_attributes.
  apply read_only_bind; [destruct bs; eauto with read_only | intros l].
  apply read_only_bind; [apply read_only_read_csv | intros df].
  read_only_steps.
Qed.

(** C9. Calling [load_camels_cl_attributes] twice in a row with the same
    arguments gives the same outcome both times (the same table, or the same
    exception), whatever the files are, because a call leaves both the files
    and the shared default list of the [basins] parameter as it found
    them. *)
Theorem load_attributes_twice (data_dir : Path) (bs : option (list string)) (w : world) :
  let first := load_camels_cl_attributes data_dir bs w in
  let second := load_camels_cl_attributes data_dir bs first.2 in
  second.1 = first.1 /\
  fs first.2 = fs w /\ default_basins first.2 = default_basins w /\
  fs second.2 = fs w /\ default_basins second.2 = default_basins w.
Proof.
  intros first second.
  destruct (read_only_load_attributes data_dir bs w) as (Hfs & Hdef & Hres).
  destruct (read_only_load_attributes data_dir bs first.2) as (Hfs' & Hdef' & _).
  fold first in Hfs, Hdef. fold second in Hfs', Hdef'.
  repeat split; [| done | done | congruence | congruence].
  by apply Hres.
Qed.

End Attributes.

(** * Dropping rows and columns *)

Section Drop.
Context {num time : Type} `{EqDecision num, EqDecision time}.

Lemma keep_unlisted {X} `{EqDecision X} (f : X -> bool) (l : list X) :
  (fun x => bool_decide (x ∉ filter (fun y => f y = false) l)) <$> l = f <$> l.
Proof.
  apply list_fmap_ext. intros i x Hx. apply list_elem_of_lookup_2 in Hx.
  destruct (f x) eqn:Hfx.
  - apply bool_decide_eq_true_2. rewrite list_elem_of_filter. intros [Hf _]. congruence.
  - apply bool_decide_eq_false_2. intros Hnot. apply Hnot.
    by apply list_elem_of_filter.
Qed.

Lemma select_filter {X} (f : X -> bool) (l : list X) :
  select (f <$> l) l = filter (fun x => f x = true) l.
Proof.
  induction l as [| x l IH]; [done |].
  rewrite fmap_cons, filter_cons. cbn [select]. destruct (f x) eqn:Hfx.
  - rewrite decide_True by done. by rewrite IH.
  - rewrite decide_False by congruence. exact IH.
Qed.

Lemma unlisted_on_axis {X} `{EqDecision X} (f : X -> bool) (l : list X) :
  forallb (fun x => bool_decide (x ∈ l)) (filter (fun y => f y = false) l) = true.
Proof.
  apply forallb_forall. intros x Hx. apply bool_decide_eq_true_2.
  apply list_elem_of_In, list_elem_of_filter in Hx. tauto.
Qed.

(** Dropping the labels of an axis that fail a test never raises and keeps
    the labels that pass, in their order, with their cells. *)
Lemma drop_unlisted_columns (f : value num time -> bool) (df : DataFrame num time) :
  drop (filter (fun c => f c = false) (columns df)) axis1 df =
  Ok {| index := index df;
        columns := filter (fun c => f c = true) (columns df);
        series := select (f <$> columns df) (series df) |}.
Proof.
  unfold drop. cbv zeta. rewrite unlisted_on_axis, keep_unlisted. by rewrite select_filter.
Qed.

Lemma drop_unlisted_rows (f : value num time -> bool) (df : DataFrame num time) :
  drop (filter (fun b => f b = false) (index df)) axis0 df =
  Ok {| index := filter (fun b => f b = true) (index df);
        columns := columns df;
        series := select (f <$> index df) <$> series df |}.
Proof.
  unfold drop. cbv zeta. rewrite unlisted_on_axis, keep_unlisted. by rewrite select_filter.
Qed.

(** The entries two lists have side by side after a selection are those
    they had side by side at a selected position. *)
Lemma select_pair_lookup {X Y} (mask : list bool) (l1 : list X) (l2 : list Y)
    (x : X) (y : Y) :
  (exists j', select mask l1 !! j' = Some x /\ select mask l2 !! j' = Some y) <->
  (exists j, mask !! j = Some true /\ l1 !! j = Some x /\ l2 !! j = Some y).
Proof.
  revert l1 l2. induction mask as [| b mask IH]; intros l1 l2.
  { split; [intros (j' & Hx & _) | intros (j & Hm & _)]; done. }
  destruct l1 as [| x1 l1].
  { split; [intros (j' & Hx & _) | intros (j & _ & Hx & _)]; done. }
  destruct l2 as [| y1 l2].
  { split; [intros (j' & _ & Hy) | intros (j & _ & _ & Hy)]; [| done].
    by destruct b. }
  cbn [select]. destruct b.
  - split.
    + intros ([| j'] & Hx & Hy); simpl in Hx, Hy.
      * exists 0%nat. by simplify_eq.
      * destruct (proj1 (IH l1 l2)) as (j & ? & ? & ?); [by exists j' |].
        by exists (S j).
    + intros ([| j] & Hm & Hx & Hy); simpl in Hm, Hx, Hy.
      * exists 0%nat. by simplify_eq.
      * destruct (proj2 (IH l1 l2)) as (j' & ? & ?); [by exists j |].
        by exists (S j').
  - rewrite IH. split.
    + intros (j & ? & ? & ?). by exists (S j).
    + intros ([| j] & Hm & Hx & Hy); simpl in Hm, Hx, Hy; [done |]. by exists j.
Qed.

End Drop.

(** * The attribute method of the dataset *)

Section LoadAttributes.
Context {num time : Type} `{EqDecision num, EqDecision time} `{Pandas num time}.

(** C4. When the configuration lists no camels attributes,
    [_load_attributes] returns [None] without reading anything; [None] is
    not a table, so it differs from every table, the tables without columns
    included. *)
Theorem load_attributes_absent (self : CamelsCL) (w : world) :
  Config.camels_attributes (cfg self) = [] ->
  _load_attributes self w = (Ok None, w) /\
  forall df : DataFrame num time, (_load_attributes self w).1 ≠ Ok (Some df).
Proof.
  intros Hnone. unfold _load_attributes. rewrite Hnone. split; [done |].
  intros df. discriminate.
Qed.

(** C5. When the configuration lists at least one camels attribute and the
    table loaded from the attributes file has every listed attribute among
    its columns, [_load_attributes] returns a table whose columns are exactly
    the listed attributes: a label is a column of the result if and only if
    it is one of the listed names.  The kept columns stand in the order of
    the file, each with the cells it had in the loaded table, and every
    other column is gone together with its cells: a label with its series is
    a column of the result if and only if the label is listed and the pair is
    a column of the loaded table.  The rows are those of the loaded table. *)
Theorem load_attributes_columns (self : CamelsCL) (w w' : world)
    (full : DataFrame num time) :
  Config.camels_attributes (cfg self) ≠ [] ->
  load_camels_cl_attributes (Config.data_dir (cfg self)) (Some (basins self)) w
    = (Ok full, w') ->
  (forall a, a ∈ Config.camels_attributes (cfg self) -> VStr a ∈ columns full) ->
  exists df,
    _load_attributes self w = (Ok (Some df), w') /\
    (forall c, c ∈ columns df <->
               exists a, c = VStr a /\ a ∈ Config.camels_attributes (cfg self)) /\
    columns df =
      filter (fun c => label_in c (Config.camels_attributes (cfg self)) = true)
             (columns full) /\
    index df = index full /\
    series df =
      select ((fun c => label_in c (Config.camels_attributes (cfg self))) <$> columns full)
             (series full) /\
    (forall c col,
       (exists j', columns df !! j' = Some c /\ series df !! j' = Some col) <->
       (label_in c (Config.camels_attributes (cfg self)) = true /\
        exists j, columns full !! j = Some c /\ series full !! j = Some col)).
Proof.
  intros Hsome Hload Hsuper. unfold _load_attributes.
  destruct (Config.camels_attributes (cfg self)) as [| a0 attrs] eqn:Hattrs; [done |].
  rewrite bind_run, Hload, bind_run.
  unfold lift. rewrite drop_unlisted_columns. eexists. split; [reflexivity |].
  cbn [columns index series]. split; [| split; [done |]; split; [done |]; split; [done |]].
  - intros c. rewrite list_elem_of_filter. split.
    + intros [Hin _]. destruct c as [s | | |]; try discriminate Hin.
      exists s. split; [done |]. by apply bool_decide_eq_true in Hin.
    + intros (a & -> & Ha). split; [by apply bool_decide_eq_true_2 | by apply Hsuper].
  - intros c col. rewrite <- select_filter, select_pair_lookup. split.
    + intros (j & Hm & Hc & Hs). rewrite list_lookup_fmap, Hc in Hm.
      injection Hm as Hm. split; [done |]. by exists j.
    + intros (Hin & j & Hc & Hs). exists j. rewrite list_lookup_fmap, Hc. simpl.
      by rewrite Hin.
Qed.

End LoadAttributes.

Lemma load_attributes_absent_witness :
  _load_attributes (H := Fixture.pandas) Fixture.no_attributes Fixture.raw_world
  = (Ok None, Fixture.raw_world).
Proof.
  apply (load_attributes_absent (H := Fixture.pandas) Fixture.no_attributes Fixture.raw_world).
  reflexivity.
Defined.

Lemma load_attributes_columns_witness :
  exists df w',
    _load_attributes (H := Fixture.pandas) Fixture.two_attributes Fixture.raw_world
      = (Ok (Some df), w') /\
    columns df = [VStr "gauge_name"; VStr "area"] /\
    index df = [VStr "1001001"; VStr "1001003"] /\
    series df = [[VStr "Rio Caquena"; VStr "Rio Lauca"]; [VNum 467; VNum 2301]].
Proof.
  destruct (load_camels_cl_attributes (H := Fixture.pandas) ["data"]
              (Some ["1001001"; "1001003"]) Fixture.raw_world) as [r w'] eqn:Hload.
  vm_compute in Hload. injection Hload as <- <-.
  edestruct (load_attributes_columns (H := Fixture.pandas) Fixture.two_attributes
               Fixture.raw_world) as (df & Hrun & _ & Hcols & Hidx & Hser & _).
  - discriminate.
  - vm_compute. reflexivity.
  - intros a Ha. simpl in Ha.
    repeat (apply elem_of_cons in Ha as [-> | Ha]); [| | by apply elem_of_nil in Ha];
      apply (bool_decide_unpack _); by vm_compute.
  - eexists df, _. split; [exact Hrun |]. split; [| split].
    + rewrite Hcols. by vm_compute.
    + rewrite Hidx. reflexivity.
    + rewrite Hser. by vm_compute.
Defined.

(** * Type conversions of the attribute table *)

Section Conversions.
Context {num time : Type} `{EqDecision num, EqDecision time} `{Pandas num time}.

(** [to_numeric] has no failing case: a column either converts cell by cell
    or, when some cell does not convert, comes back as it was. *)
Lemma to_numeric_column (col : list (value num time)) :
  Forall2 (fun c c' => numeric_cell c = Some c') col (to_numeric col) \/
  (Exists (fun c => numeric_cell c = None) col /\ to_numeric col = col).
Proof.
  unfold to_numeric. destruct (mapM numeric_cell col) as [col' |] eqn:Hm.
  - left. by apply mapM_Some.
  - right. split; [by apply mapM_None | done].
Qed.

Lemma to_datetime_series (col col' : list (value num time)) :
  to_datetime (Series col) = Ok col' ->
  Forall2 (fun c c' => datetime_cell c = Some c') col col'.
Proof.
  simpl. destruct (mapM datetime_cell col) as [l |] eqn:Hm; [| discriminate].
  intros [= <-]. by apply mapM_Some.
Qed.

Lemma to_datetime_error (x : selection num time) (e : exception) :
  to_datetime x = Raise e -> exists m, e = ValueError m.
Proof.
  destruct x as [col | df]; simpl.
  - destruct (mapM datetime_cell col); [discriminate |]. intros [= <-]. eauto.
  - intros [= <-]. eauto.
Qed.

Lemma select_elem {X} (mask : list bool) (l : list X) (j : nat) (x : X) :
  mask !! j = Some true -> l !! j = Some x -> x ∈ select mask l.
Proof.
  revert l j. induction mask as [| b mask IH]; intros l j Hm Hl; [done |].
  destruct l as [| y l]; [done |]. destruct j as [| j]; simpl in *.
  - injection Hm as ->. injection Hl as ->. apply list_elem_of_here.
  - destruct b; [apply list_elem_of_further |]; by eapply IH.
Qed.

Lemma elem_select {X} (mask : list bool) (l : list X) (x : X) :
  x ∈ select mask l -> exists j, mask !! j = Some true /\ l !! j = Some x.
Proof.
  revert l. induction mask as [| b mask IH]; intros l Hx; [by apply elem_of_nil in Hx |].
  destruct l as [| y l]; [by apply elem_of_nil in Hx |]. simpl in Hx.
  destruct b.
  - apply elem_of_cons in Hx as [-> | Hx]; [by exists 0%nat |].
    destruct (IH _ Hx) as (j & ? & ?). by exists (S j).
  - destruct (IH _ Hx) as (j & ? & ?). by exists (S j).
Qed.

(** What converting the column [label] to timestamps can do: raise the
    [KeyError] of a missing label or the [ValueError] of [to_datetime], or
    give the timestamps of the one column that carries the label. *)
Lemma convert_date_column_error (df : DataFrame num time) (label : string) (e : exception) :
  getitem_col df label ≫= to_datetime = Raise e ->
  e = KeyError label \/ exists m, e = ValueError m.
Proof.
  unfold getitem_col.
  destruct (select _ (series df)) as [| col [| col2 rest]]; simpl.
  - intros [= <-]. by left.
  - intros He. right. by apply (to_datetime_error (Series col)).
  - intros [= <-]. right. eauto.
Qed.

Lemma convert_date_column_ok (df : DataFrame num time) (label : string)
    (col' : list (value num time)) :
  getitem_col df label ≫= to_datetime = Ok col' ->
  VStr label ∈ columns df /\
  forall j c, columns df !! j = Some (VStr label) -> series df !! j = Some c ->
              Forall2 (fun c c' => datetime_cell c = Some c') c col'.
Proof.
  unfold getitem_col.
  destruct (select _ (series df)) as [| col [| col2 rest]] eqn:Hsel; simpl;
    [discriminate | | discriminate].
  intros Hconv. split.
  - destruct (elem_select ((fun c => bool_decide (c = VStr label)) <$> columns df)
                (series df) col) as (j & Hm & _).
    { rewrite Hsel. apply list_elem_of_here. }
    rewrite list_lookup_fmap in Hm.
    destruct (columns df !! j) as [c |] eqn:Hc; [| done]. simpl in Hm.
    injection Hm as Hm. apply bool_decide_eq_true in Hm as ->.
    by eapply list_elem_of_lookup_2.
  - intros j c Hc Hs.
    assert (c ∈ select ((fun c => bool_decide (c = VStr label)) <$> columns df) (series df))
      as Hin.
    { eapply select_elem; [| exact Hs]. rewrite list_lookup_fmap, Hc. simpl.
      by rewrite bool_decide_eq_true_2. }
    rewrite Hsel in Hin. apply list_elem_of_singleton in Hin as ->.
    by apply to_datetime_series.
Qed.

Lemma setitem_col_lookup (df : DataFrame num time) (label : string)
    (col c : list (value num time)) (j : nat) (l : value num time) :
  VStr label ∈ columns df ->
  columns df !! j = Some l -> series df !! j = Some c ->
  series (setitem_col df label col) !! j
    = Some (if bool_decide (l = VStr label) then col else c).
Proof.
  intros Hin Hl Hc. unfold setitem_col. rewrite (bool_decide_eq_true_2 _ Hin). simpl.
  by rewrite lookup_zip_with, Hl, Hc.
Qed.

Lemma setitem_col_labels (df : DataFrame num time) (label : string)
    (col : list (value num time)) :
  VStr label ∈ columns df ->
  columns (setitem_col df label col) = columns df /\
  index (setitem_col df label col) = index df.
Proof.
  intros Hin. unfold setitem_col. by rewrite (bool_decide_eq_true_2 _ Hin).
Qed.

End Conversions.

Section LoaderConversions.
Context {num time : Type} `{EqDecision num, EqDecision time} `{Pandas num time}.

Lemma date_label_cases (label : value num time) :
  (label = VStr "record_period_start" \/ label = VStr "record_period_end") <->
  label ∈ (VStr <$> date_columns : list (value num time)).
Proof.
  unfold date_columns. rewrite !fmap_cons, fmap_nil, !elem_of_cons, elem_of_nil. tauto.
Qed.

(** Converting the two record-period columns in turn: when both conversions
    succeed the labels are unchanged, the record-period columns hold the
    timestamps of their cells, and every other column is untouched. *)
Lemma date_conversions_columns (df1 : DataFrame num time)
    (c1 c2 : list (value num time)) :
  getitem_col df1 "record_period_start" ≫= to_datetime = Ok c1 ->
  getitem_col (setitem_col df1 "record_period_start" c1) "record_period_end"
    ≫= to_datetime = Ok c2 ->
  let df3 := setitem_col (setitem_col df1 "record_period_start" c1)
               "record_period_end" c2 in
  columns df3 = columns df1 /\ index df3 = index df1 /\
  forall j label c, columns df1 !! j = Some label -> series df1 !! j = Some c ->
    exists col, series df3 !! j = Some col /\
      if bool_decide (label ∈ (VStr <$> date_columns : list (value num time)))
      then Forall2 (fun c c' => datetime_cell c = Some c') c col
      else col = c.
Proof.
  intros H1 H2 df3.
  destruct (convert_date_column_ok _ _ _ H1) as [Hin1 Hcol1].
  destruct (convert_date_column_ok _ _ _ H2) as [Hin2 Hcol2].
  destruct (setitem_col_labels df1 "record_period_start" c1 Hin1) as [Hc2 Hi2].
  destruct (setitem_col_labels _ "record_period_end" c2 Hin2) as [Hc3 Hi3].
  fold df3 in Hc3, Hi3.
  split; [congruence |]. split; [congruence |].
  intros j label c Hl Hc.
  pose proof (setitem_col_lookup df1 "record_period_start" c1 c j label Hin1 Hl Hc) as Hs2.
  rewrite <- Hc2 in Hl.
  pose proof (setitem_col_lookup _ "record_period_end" c2 _ j label Hin2 Hl Hs2) as Hs3.
  fold df3 in Hs3. eexists. split; [exact Hs3 |].
  destruct (decide (label = VStr "record_period_end")) as [-> | Hne2].
  - rewrite !bool_decide_eq_true_2 by (done || (apply date_label_cases; by right)).
    rewrite bool_decide_eq_false_2 in Hs2 by done.
    by apply (Hcol2 j).
  - rewrite (bool_decide_eq_false_2 _ Hne2).
    destruct (decide (label = VStr "record_period_start")) as [-> | Hne1].
    + rewrite !bool_decide_eq_true_2 by (done || (apply date_label_cases; by left)).
      rewrite Hc2 in Hl. by apply (Hcol1 j).
    + rewrite (bool_decide_eq_false_2 _ Hne1).
      rewrite bool_decide_eq_false_2; [done |].
      rewrite <- date_label_cases. tauto.
Qed.

End LoaderConversions.

(** An attributes file whose [record_period_start] holds the text
    "unknown" for one basin: the text is no number, the numeric conversion
    lets it through, and the load then fails in [to_datetime]. *)
Lemma load_attributes_fails_on_unparseable_date :
  parse_num (Pandas := Fixture.pandas) "unknown" = None /\
  (exists df0 w1,
     read_csv (H := Fixture.pandas) ["data"; "1_CAMELScl_attributes.txt"] tab "gauge_id"
       false Fixture.unknown_start_world = (Ok df0, w1) /\
     [VStr "1976-09-07"; VStr "unknown"] ∈ series (apply_to_numeric (transpose df0))) /\
  (load_camels_cl_attributes (H := Fixture.pandas) ["data"] None
     Fixture.unknown_start_world).1
  = Raise (ValueError "to_datetime: unable to parse a value as a datetime").
Proof.
  split; [reflexivity |]. split; [| by vm_compute].
  eexists _, _. split; [by vm_compute |].
  apply (bool_decide_unpack _). by vm_compute.
Qed.

(** * Further properties of the forward pass *)

Section ForwardKeys.
Context {A : Type} `{Torch A} `{HeadFactory A}.

Lemma forward_inputs_reads_three (data data' : gmap string (Tensor A)) :
  data' !! "x_d" = data !! "x_d" ->
  data' !! "x_s" = data !! "x_s" ->
  data' !! "x_one_hot" = data !! "x_one_hot" ->
  GRU.forward_inputs data' = GRU.forward_inputs data.
Proof.
  intros Hd Hs Ho. unfold GRU.forward_inputs, getitem. by rewrite Hd, Hs, Ho.
Qed.

(** X1. [forward] reads the input mapping at the keys [x_d], [x_s] and
    [x_one_hot] only: two mappings that agree on these three keys give the
    same result, whatever else they hold (targets, other frequencies). *)
Theorem forward_reads_three_keys (self : GRU.t A) (data data' : gmap string (Tensor A)) :
  data' !! "x_d" = data !! "x_d" ->
  data' !! "x_s" = data !! "x_s" ->
  data' !! "x_one_hot" = data !! "x_one_hot" ->
  GRU.forward self data' = GRU.forward self data.
Proof.
  intros Hd Hs Ho. unfold GRU.forward.
  by rewrite (forward_inputs_reads_three data data' Hd Hs Ho).
Qed.

(** X2. Without the key [x_d] the forward pass raises [KeyError('x_d')],
    whatever the other entries are; the recurrent cell and the head are not
    run. *)
Theorem forward_without_x_d (self : GRU.t A) (data : gmap string (Tensor A)) :
  data !! "x_d" = None ->
  GRU.forward_inputs data = Raise (KeyError "x_d") /\
  GRU.forward self data = Raise (KeyError "x_d").
Proof.
  intros Hd. assert (Hin : GRU.forward_inputs data = Raise (KeyError "x_d")).
  { unfold GRU.forward_inputs, getitem. by rewrite Hd. }
  split; [exact Hin |]. unfold GRU.forward. by rewrite Hin.
Qed.

Lemma cat2_mismatch (a b : Tensor3 A) a0 a1 a2 b0 b1 b2 :
  shape3 a = (a0, a1, a2) -> shape3 b = (b0, b1, b2) -> a1 ≠ b1 ->
  cat2 a b = Raise (RuntimeError "Sizes of tensors must match except in dimension 2").
Proof.
  intros Ha Hb Hne. unfold cat2. rewrite Ha, Hb.
  apply Nat.eqb_neq in Hne. by rewrite Hne, andb_false_r.
Qed.

Lemma cat2_shape (a b c : Tensor3 A) :
  cat2 a b = Ok c ->
  (shape3 c).1 = (shape3 a).1 /\ (shape3 a).1 = (shape3 b).1.
Proof.
  unfold cat2. destruct (shape3 a) as [[a0 a1] a2], (shape3 b) as [[b0 b1] b2].
  destruct ((a0 =? b0)%nat && (a1 =? b1)%nat) eqn:Heq; [| discriminate].
  intros [= <-]. simpl. apply andb_true_iff in Heq as [Heq0 Heq1].
  apply Nat.eqb_eq in Heq0, Heq1. by subst.
Qed.

Lemma cat2_raises (a b : Tensor3 A) (e : exception) :
  cat2 a b = Raise e ->
  e = RuntimeError "Sizes of tensors must match except in dimension 2".
Proof.
  unfold cat2. destruct (shape3 a) as [[a0 a1] a2], (shape3 b) as [[b0 b1] b2].
  destruct ((a0 =? b0)%nat && (a1 =? b1)%nat); [discriminate | by intros [= <-]].
Qed.

(** X3. A static input whose batch size differs from that of [x_d] is
    neither cut nor repeated to fit: the concatenation fails with the tensor
    library's size error, with or without a one-hot input beside it, and the
    recurrent cell is not run. *)
Theorem forward_static_batch_mismatch (self : GRU.t A) (data : gmap string (Tensor A))
    (x_d : Tensor3 A) (x_s : Tensor2 A) (x_one_hot : option (Tensor2 A))
    (B T F Bs S : nat) :
  data !! "x_d" = Some (Rank3 x_d) ->
  data !! "x_s" = Some (Rank2 x_s) ->
  data !! "x_one_hot" = Rank2 <$> x_one_hot ->
  shape3 x_d = (B, T, F) -> shape2 x_s = (Bs, S) -> Bs ≠ B ->
  GRU.forward self data =
    Raise (RuntimeError "Sizes of tensors must match except in dimension 2").
Proof.
  intros Hd Hs Ho Hshape Hss Hne.
  assert (Hin : GRU.forward_inputs data =
                Raise (RuntimeError "Sizes of tensors must match except in dimension 2")).
  { unfold GRU.forward_inputs. rewrite (getitem_rank3 _ _ _ Hd). simpl.
    rewrite Hs, Ho, (transpose01_shape _ _ _ _ Hshape). simpl.
    pose proof (transpose01_shape _ _ _ _ Hshape) as Htsh.
    pose proof (broadcast_shape x_s T _ _ Hss) as Hbs.
    destruct x_one_hot as [o |]; simpl.
    - destruct (cat2 (repeat0 T (unsqueeze0 x_s)) (repeat0 T (unsqueeze0 o)))
        as [r | e] eqn:Hr; simpl.
      + destruct (cat2_shape _ _ _ Hr) as [Hrs _]. rewrite Hbs in Hrs. simpl in Hrs.
        destruct (shape3 r) as [[r0 r1] r2] eqn:Hrshape. simpl in Hrs. injection Hrs as -> ->.
        by apply (cat2_mismatch _ _ _ _ _ _ _ _ Htsh Hrshape).
      + by rewrite (cat2_raises _ _ _ Hr).
    - by apply (cat2_mismatch _ _ _ _ _ _ _ _ Htsh Hbs). }
  unfold GRU.forward. by rewrite Hin.
Qed.

End ForwardKeys.

Lemma forward_reads_three_keys_witness :
  GRU.forward Fixture.batch_model Fixture.batch_with_target
  = GRU.forward Fixture.batch_model Fixture.batch.
Proof.
  apply (forward_reads_three_keys Fixture.batch_model); reflexivity.
Defined.

Lemma forward_without_x_d_witness :
  GRU.forward Fixture.batch_model Fixture.batch_without_x_d = Raise (KeyError "x_d").
Proof.
  apply (forward_without_x_d Fixture.batch_model Fixture.batch_without_x_d). reflexivity.
Defined.

Lemma forward_static_batch_mismatch_witness :
  GRU.forward Fixture.batch_model Fixture.batch_mismatched =
    Raise (RuntimeError "Sizes of tensors must match except in dimension 2").
Proof.
  apply (forward_static_batch_mismatch Fixture.batch_model Fixture.batch_mismatched
           Fixture.x_d Fixture.x_s_three_rows None 2 3 2 3 1); try reflexivity.
  lia.
Defined.

Section ForwardOutput.
Context {A : Type} `{Torch A} `{!TorchShapes A} `{HeadFactory A}.

(** One run of the forward pass on a well-shaped batch of the cell's width
    with at least one time step:
    the tensors it goes through and the mapping it returns. *)
Lemma forward_run (self : GRU.t A) (data : gmap string (Tensor A))
    (x_d : Tensor3 A) (x_s x_one_hot : option (Tensor2 A)) (B T F : nat) :
  data !! "x_d" = Some (Rank3 x_d) ->
  data !! "x_s" = Rank2 <$> x_s ->
  data !! "x_one_hot" = Rank2 <$> x_one_hot ->
  wf3 x_d = true -> shape3 x_d = (B, T, F) ->
  (forall s, x_s = Some s -> wf2 s = true /\ (shape2 s).1 = B) ->
  (forall o, x_one_hot = Some o -> wf2 o = true /\ (shape2 o).1 = B) ->
  (0 < T)%nat ->
  Z.of_nat (F + (opt_width x_s + opt_width x_one_hot)) = input_size (GRU.gru self) ->
  exists x out h_n,
    GRU.forward_inputs data = Ok x /\
    nnGRU_forward (GRU.gru self) x = Ok (out, h_n) /\
    wf3 (transpose01 out) = true /\
    shape3 (transpose01 out) = (B, T, Z.to_nat (hidden_size (GRU.gru self))) /\
    wf3 (transpose01 h_n) = true /\
    shape3 (transpose01 h_n) = (B, 1%nat, Z.to_nat (hidden_size (GRU.gru self))) /\
    GRU.forward self data =
      Ok (head_forward (GRU.head self)
            (nnDropout_forward (GRU.dropout self) (transpose01 out))
          ∪ {[ "h_n" := Rank3 (transpose01 h_n) ]}).
Proof.
  intros Hd Hs Ho Hwf Hshape Hfs Hfo HT Hwidth.
  destruct (forward_inputs_shape data x_d x_s x_one_hot B T F Hd Hs Ho Hwf Hshape Hfs Hfo)
    as (x & Hx & Hxwf & Hxshape).
  destruct (nnGRU_forward_shape (GRU.gru self) x _ _ _ Hxwf Hxshape HT Hwidth)
    as (out & h_n & Hrun & Hout_wf & Hhn_wf & Hout_shape & Hhn_shape).
  exists x, out, h_n.
  split; [done |]. split; [done |].
  split; [by eapply transpose01_wf |]. split; [by apply transpose01_shape |].
  split; [by eapply transpose01_wf |]. split; [by apply transpose01_shape |].
  unfold GRU.forward. rewrite Hx. simpl. by rewrite Hrun.
Qed.

(** X4. On a well-shaped batch of the cell's width, with at least one time
    step (the cell refuses an empty sequence), the returned mapping is
    the head's mapping with the final hidden state added under [h_n]: every
    entry of the head is returned as it is (also one named [h_n], which then
    replaces the hidden state), no other key appears, and when the head has
    no [h_n] the entry is the cell's final state made batch-first, of shape
    [(B, 1, hidden_size)]. *)
Theorem forward_output_entries (self : GRU.t A) (data : gmap string (Tensor A))
    (x_d : Tensor3 A) (x_s x_one_hot : option (Tensor2 A)) (B T F : nat) :
  data !! "x_d" = Some (Rank3 x_d) ->
  data !! "x_s" = Rank2 <$> x_s ->
  data !! "x_one_hot" = Rank2 <$> x_one_hot ->
  wf3 x_d = true -> shape3 x_d = (B, T, F) ->
  (forall s, x_s = Some s -> wf2 s = true /\ (shape2 s).1 = B) ->
  (forall o, x_one_hot = Some o -> wf2 o = true /\ (shape2 o).1 = B) ->
  (0 < T)%nat ->
  Z.of_nat (F + (opt_width x_s + opt_width x_one_hot)) = input_size (GRU.gru self) ->
  exists x out h_n pred,
    GRU.forward_inputs data = Ok x /\
    nnGRU_forward (GRU.gru self) x = Ok (out, h_n) /\
    GRU.forward self data = Ok pred /\
    let head_out :=
      head_forward (GRU.head self)
        (nnDropout_forward (GRU.dropout self) (transpose01 out)) in
    (forall k v, head_out !! k = Some v -> pred !! k = Some v) /\
    (forall k, k ≠ "h_n" -> pred !! k = head_out !! k) /\
    (head_out !! "h_n" = None -> pred !! "h_n" = Some (Rank3 (transpose01 h_n))) /\
    wf3 (transpose01 h_n) = true /\
    shape3 (transpose01 h_n) = (B, 1%nat, Z.to_nat (hidden_size (GRU.gru self))).
Proof.
  intros Hd Hs Ho Hwf Hshape Hfs Hfo HT Hwidth.
  destruct (forward_run self data x_d x_s x_one_hot B T F Hd Hs Ho Hwf Hshape Hfs Hfo HT
              Hwidth)
    as (x & out & h_n & Hx & Hrun & _ & _ & Hhwf & Hhshape & Hfw).
  eexists x, out, h_n, _. split; [done |]. split; [done |]. split; [exact Hfw |].
  cbv zeta. split; [| split; [| split; [| done]]].
  - intros k v Hk. by apply lookup_union_Some_l.
  - intros k Hk. rewrite lookup_union_l; [done |].
    by rewrite lookup_singleton_ne.
  - intros Hnone. rewrite lookup_union_r by done. apply lookup_singleton_eq.
Qed.

End ForwardOutput.

Lemma forward_output_entries_witness :
  exists pred h,
    GRU.forward Fixture.batch_model Fixture.batch = Ok pred /\
    pred !! "h_n" = Some (Rank3 h) /\ shape3 h = (2, 1, 4)%nat /\
    forall k, k ≠ "h_n" -> k ≠ "y_hat" -> pred !! k = None.
Proof.
  destruct (forward_output_entries Fixture.batch_model Fixture.batch Fixture.x_d
              (Some Fixture.x_s) (Some Fixture.x_one_hot) 2 3 2)
    as (x & out & h_n & pred & _ & _ & Hrun & _ & Hother & Hhn & _ & Hshape).
  - reflexivity.
  - reflexivity.
  - reflexivity.
  - reflexivity.
  - reflexivity.
  - intros s [= <-]. split; reflexivity.
  - intros o [= <-]. split; reflexivity.
  - lia.
  - reflexivity.
  - exists pred, (transpose01 h_n). split; [exact Hrun |].
    split; [| split; [exact Hshape |]].
    + apply Hhn. simpl. unfold Fixture.linear_head.
      destruct (shape3 (transpose01 out)) as [[? ?] ?]. by apply lookup_singleton_ne.
    + intros k Hk Hy. rewrite (Hother k Hk). simpl. unfold Fixture.linear_head.
      destruct (shape3 (transpose01 out)) as [[? ?] ?]. by apply lookup_singleton_ne.
Defined.

Section Constructed.
Context {A : Type} `{Torch A} `{!TorchShapes A} `{HeadFactory A} `{!HeadContract A}.

(** X5. The constructor and the forward pass agree on the feature width: a
    model built by [GRU.__init__] from a configuration runs on every
    well-shaped batch of at least one time step whose dynamic, static and
    one-hot widths add up to the width counted from that configuration.  The result has [y_hat] with
    leading axes batch and time, and the hidden state the cell returns has
    the configured [hidden_size]. *)
Theorem constructed_model_runs (cfg : Config.t) (m : GRU.t A)
    (data : gmap string (Tensor A)) (x_d : Tensor3 A)
    (x_s x_one_hot : option (Tensor2 A)) (B T F : nat) :
  GRU.__init__ cfg = Ok m ->
  data !! "x_d" = Some (Rank3 x_d) ->
  data !! "x_s" = Rank2 <$> x_s ->
  data !! "x_one_hot" = Rank2 <$> x_one_hot ->
  wf3 x_d = true -> shape3 x_d = (B, T, F) ->
  (forall s, x_s = Some s -> wf2 s = true /\ (shape2 s).1 = B) ->
  (forall o, x_one_hot = Some o -> wf2 o = true /\ (shape2 o).1 = B) ->
  (0 < T)%nat ->
  Z.of_nat (F + (opt_width x_s + opt_width x_one_hot)) = expected_width cfg ->
  exists pred x out h_n y n,
    GRU.forward m data = Ok pred /\
    GRU.forward_inputs data = Ok x /\
    nnGRU_forward (GRU.gru m) x = Ok (out, h_n) /\
    shape3 (transpose01 h_n) = (B, 1%nat, Z.to_nat (Config.hidden_size cfg)) /\
    pred !! "y_hat" = Some (Rank3 y) /\ wf3 y = true /\ shape3 y = (B, T, n).
Proof.
  intros Hinit Hd Hs Ho Hwf Hshape Hfs Hfo HT Hwidth.
  unfold GRU.__init__ in Hinit.
  destruct (get_head cfg (Config.hidden_size cfg) (output_size cfg)) as [hd | e];
    simpl in Hinit; [| discriminate].
  assert (Hm : input_size (GRU.gru m) = GRU.calc_input_size cfg /\
               hidden_size (GRU.gru m) = Config.hidden_size cfg)
    by (by injection Hinit as <-).
  destruct Hm as [Hmi Hmh].
  rewrite <- calc_input_size_sum, <- Hmi in Hwidth.
  destruct (forward_run m data x_d x_s x_one_hot B T F Hd Hs Ho Hwf Hshape Hfs Hfo HT
              Hwidth)
    as (x & out & h_n & Hx & Hrun & Howf & Hoshape & _ & Hhshape & Hfw).
  destruct (nnDropout_forward_shape (GRU.dropout m) _ Howf) as [Hdwf Hdshape].
  rewrite Hoshape in Hdshape. rewrite Hmh in Hhshape.
  destruct (head_forward_y_hat (GRU.head m) _ _ _ _ Hdwf Hdshape)
    as (y & n & Hy & Hywf & Hyshape).
  eexists _, x, out, h_n, y, n. split; [exact Hfw |].
  repeat split; try done.
  by apply lookup_union_Some_l.
Qed.

End Constructed.

Lemma constructed_model_runs_witness :
  exists m pred y n,
    GRU.__init__ Fixture.batch_config = Ok m /\
    GRU.forward m Fixture.batch = Ok pred /\
    pred !! "y_hat" = Some (Rank3 y) /\ shape3 y = (2, 3, n)%nat.
Proof.
  destruct (constructed_model_runs Fixture.batch_config Fixture.batch_model Fixture.batch
              Fixture.x_d (Some Fixture.x_s) (Some Fixture.x_one_hot) 2 3 2)
    as (pred & x & out & h_n & y & n & Hrun & _ & _ & _ & Hy & _ & Hshape).
  - reflexivity.
  - reflexivity.
  - reflexivity.
  - reflexivity.
  - reflexivity.
  - reflexivity.
  - intros s [= <-]. split; reflexivity.
  - intros o [= <-]. split; reflexivity.
  - lia.
  - reflexivity.
  - exists Fixture.batch_model, pred, y, n. repeat split; done.
Defined.

(** * The two registries *)

Section RegistryDispatch.
Context `{Modelzoo}.

Lemma frequency_test_passes (cfg : Config.t) :
  ~ (Config.model cfg ∈ SINGLE_FREQ_MODELS /\
     (1 < length (Config.use_frequencies cfg))%nat) ->
  bool_decide (Config.model cfg ∈ SINGLE_FREQ_MODELS) &&
  bool_decide (1 < length (Config.use_frequencies cfg))%nat = false.
Proof.
  intros Hpass. apply andb_false_iff.
  destruct (decide (Config.model cfg ∈ SINGLE_FREQ_MODELS)) as [Hin | Hout].
  - right. apply bool_decide_eq_false_2. tauto.
  - left. by apply bool_decide_eq_false_2.
Qed.

(** X6. When the frequency test does not fire, a configuration whose
    [model] is one of the seven registered names makes [get_model] call the
    constructor of the class registered under that name, once and with the
    configuration itself, and return what that constructor returns or raise
    what it raises; no other class is instantiated.  A model outside
    [SINGLE_FREQ_MODELS] is built in this way also with several
    frequencies. *)
Theorem get_model_dispatch (cfg : Config.t) (c : model_class) (made : constructions) :
  (Config.model cfg, c) ∈ registry ->
  ~ (Config.model cfg ∈ SINGLE_FREQ_MODELS /\
     (1 < length (Config.use_frequencies cfg))%nat) ->
  get_model cfg made = (construct c cfg, made ++ [(c, cfg)]).
Proof.
  intros Hreg Hpass. unfold get_model. rewrite (frequency_test_passes cfg Hpass).
  unfold registry in Hreg.
  repeat (apply elem_of_cons in Hreg as [Heq | Hreg];
          [injection Heq as Hname ->; rewrite Hname; rewrite bind_run; unfold new; simpl;
           by destruct (construct _ cfg) |]).
  by apply elem_of_nil in Hreg.
Qed.

(** X7. When the frequency test does not fire and [model] is none of the
    seven registered names (the comparison is exact, so also a registered
    name in another case), [get_model] raises [NotImplementedError] naming
    the model, and no constructor is called. *)
Theorem get_model_unknown (cfg : Config.t) (made : constructions) :
  Config.model cfg ∉ registry.*1 ->
  ~ (Config.model cfg ∈ SINGLE_FREQ_MODELS /\
     (1 < length (Config.use_frequencies cfg))%nat) ->
  get_model cfg made =
    (Raise (NotImplementedError
              (Config.model cfg +:+ " not implemented or not linked in `get_model()`")),
     made).
Proof.
  intros Hout Hpass. unfold get_model. rewrite (frequency_test_passes cfg Hpass).
  unfold registry in Hout. simpl in Hout.
  repeat (let Hne := fresh "Hne" in
          apply not_elem_of_cons in Hout as [Hne Hout];
          apply String.eqb_neq in Hne; rewrite Hne).
  reflexivity.
Qed.

End RegistryDispatch.

Lemma get_model_dispatch_witness :
  get_model Fixture.multi_frequency_model [] =
    (Ok MTSLSTM, [(MTSLSTM, Fixture.multi_frequency_model)]).
Proof.
  refine (get_model_dispatch (H := Fixture.zoo) Fixture.multi_frequency_model MTSLSTM [] _ _).
  - do 5 apply list_elem_of_further. apply list_elem_of_here.
  - intros [Hin _]. revert Hin. apply (bool_decide_unpack _). by vm_compute.
Defined.

Lemma get_model_unknown_witness :
  get_model Fixture.unknown_model [] =
    (Raise (NotImplementedError "GRU not implemented or not linked in `get_model()`"), []).
Proof.
  refine (get_model_unknown (H := Fixture.zoo) Fixture.unknown_model [] _ _).
  - apply (bool_decide_unpack _). by vm_compute.
  - intros [Hin _]. revert Hin. apply (bool_decide_unpack _). by vm_compute.
Defined.

Section DatasetDispatch.
Context `{Datasetzoo}.

(** X8. For a configuration whose [dataset] is one of the four registered
    names, [get_dataset] instantiates the class registered under that name,
    once, handing over every argument it received unchanged, and returns
    what the constructor returns or raises what it raises. *)
Theorem get_dataset_dispatch (args : DatasetArgs.t Features IdToInt Scaler)
    (c : DatasetClass.t) (made : dataset_constructions) :
  (Config.dataset (DatasetArgs.cfg args), c) ∈ dataset_registry ->
  get_dataset args made = (construct_dataset c args, made ++ [(c, args)]).
Proof.
  intros Hreg. unfold get_dataset, dataset_registry in *. cbv zeta.
  repeat (apply elem_of_cons in Hreg as [Heq | Hreg];
          [injection Heq as Hname ->; rewrite Hname; rewrite !bind_run;
           unfold new_dataset; simpl;
           by destruct (construct_dataset _ args) |]).
  by apply elem_of_nil in Hreg.
Qed.

(** X9. For any other [dataset] name [get_dataset] raises
    [NotImplementedError] naming the dataset, and no dataset object is
    constructed. *)
Theorem get_dataset_unknown (args : DatasetArgs.t Features IdToInt Scaler)
    (made : dataset_constructions) :
  Config.dataset (DatasetArgs.cfg args) ∉ dataset_registry.*1 ->
  get_dataset args made =
    (Raise (NotImplementedError
              ("No dataset class implemented for dataset " +:+
               Config.dataset (DatasetArgs.cfg args))),
     made).
Proof.
  intros Hout. unfold get_dataset. cbv zeta.
  unfold dataset_registry in Hout. simpl in Hout.
  repeat (let Hne := fresh "Hne" in
          apply not_elem_of_cons in Hout as [Hne Hout];
          apply String.eqb_neq in Hne; rewrite Hne).
  reflexivity.
Qed.

End DatasetDispatch.

Lemma get_dataset_dispatch_witness :
  get_dataset Fixture.camels_cl_args [] =
    (Ok (DatasetClass.CamelsCL, ["1001001"]),
     [(DatasetClass.CamelsCL, Fixture.camels_cl_args)]).
Proof.
  refine (get_dataset_dispatch (H := Fixture.datasets) Fixture.camels_cl_args
            DatasetClass.CamelsCL [] _).
  do 3 apply list_elem_of_further. apply list_elem_of_here.
Defined.

Lemma get_dataset_unknown_witness :
  exists msg,
    get_dataset (DatasetArgs.mk Fixture.unknown_model false "test" None [] ∅ ∅) [] =
      (Raise (NotImplementedError msg), []) /\
    msg = "No dataset class implemented for dataset camels_de".
Proof.
  eexists. split; [| reflexivity].
  refine (get_dataset_unknown (H := Fixture.datasets)
            (DatasetArgs.mk Fixture.unknown_model false "test" None [] ∅ ∅) [] _).
  apply (bool_decide_unpack _). by vm_compute.
Defined.

(** * Further properties of the loaders *)

Section LoaderRuns.
Context {num time : Type} `{EqDecision num, EqDecision time} `{Pandas num time}.

Lemma read_csv_run (path : Path) (sep index_col : string) (dates : bool) (w : world) :
  read_csv path sep index_col dates w =
    (match fs w !! path with
     | Some (File text) =>
         tbl ← tokenize sep text;
         df ← set_index index_col tbl;
         Ok (if dates then parse_dates_index df else df)
     | Some Directory =>
         Raise (IsADirectoryError (Some 21) "Is a directory" (Some (path_str path)))
     | None =>
         Raise (FileNotFoundError (Some 2) "No such file or directory"
                  (Some (path_str path)))
     end, log (EvOpen path) w).
Proof.
  unfold read_csv. rewrite bind_run. unfold read_text.
  destruct (fs w !! path) as [[| text] |]; try reflexivity.
  rewrite bind_run. unfold lift at 1.
  destruct (tokenize sep text) as [tbl | e]; [| reflexivity].
  rewrite bind_run. unfold lift.
  change (Ok tbl ≫= ?f) with (f tbl). cbv beta.
  by destruct (set_index index_col tbl).
Qed.

Lemma read_csv_world (path : Path) (sep index_col : string) (dates : bool) (w : world) :
  (read_csv path sep index_col dates w).2 = log (EvOpen path) w.
Proof. by rewrite read_csv_run. Qed.

(** The attribute loader, step by step: one read, the two type
    conversions, the row selection. *)
Lemma load_attributes_run (data_dir : Path) (bs : option (list string)) (w : world) :
  load_camels_cl_attributes data_dir bs w =
    match read_csv (attributes_file data_dir) tab "gauge_id" false w with
    | (Ok df0, w1) =>
        (match convert_date_columns (apply_to_numeric (transpose df0)) with
         | Ok df => Ok (keep_rows (default (default_basins w) bs) df)
         | Raise e => Raise e
         end, w1)
    | (Raise e, w1) => (Raise e, w1)
    end.
Proof.
  unfold load_camels_cl_attributes, attributes_file. rewrite bind_run.
  assert (Hfirst : (match bs return M world (list string) with
                    | Some l => mret l
                    | None => fun w : world => (Ok (default_basins w), w)
                    end) w = (Ok (default (default_basins w) bs), w)) by (by destruct bs).
  rewrite Hfirst, bind_run.
  destruct (read_csv _ tab "gauge_id" false w) as [[df0 | e] w1]; [| reflexivity].
  unfold convert_date_columns.
  rewrite bind_run. unfold lift at 1.
  destruct (getitem_col _ "record_period_start" ≫= to_datetime) as [c1 | e]; [| reflexivity].
  change (Ok c1 ≫= ?f) with (f c1). cbv beta iota zeta.
  rewrite bind_run. unfold lift at 1.
  destruct (getitem_col _ "record_period_end" ≫= to_datetime) as [c2 | e]; [| reflexivity].
  change (Ok c2 ≫= ?f) with (f c2). cbv beta iota zeta.
  destruct (default (default_basins w) bs) as [| b0 bl]; [reflexivity |].
  rewrite bind_run. unfold lift.
  by rewrite (drop_unlisted_rows (fun b => label_in b (b0 :: bl))).
Qed.

(** The attribute method, step by step. *)
Lemma load_attributes_method_run (self : CamelsCL) (w : world) :
  _load_attributes self w =
    match Config.camels_attributes (cfg self) with
    | [] => (Ok None, w)
    | _ :: _ =>
        match load_camels_cl_attributes (Config.data_dir (cfg self))
                (Some (basins self)) w with
        | (Ok full, w1) =>
            (Ok (Some (keep_columns (Config.camels_attributes (cfg self)) full)), w1)
        | (Raise e, w1) => (Raise e, w1)
        end
    end.
Proof.
  unfold _load_attributes.
  destruct (Config.camels_attributes (cfg self)) as [| a0 attrs]; [done |].
  rewrite bind_run.
  destruct (load_camels_cl_attributes _ _ w) as [[full | e] w1]; [| reflexivity].
  rewrite bind_run. unfold lift.
  by rewrite (drop_unlisted_columns (fun c => label_in c (a0 :: attrs))).
Qed.

End LoaderRuns.

Section LoaderExtras.
Context {num time : Type} `{EqDecision num, EqDecision time} `{Pandas num time}.

Lemma keep_rows_labels (bl : list string) (df : DataFrame num time) (l : value num time) :
  bl ≠ [] -> l ∈ index (keep_rows bl df) ->
  l ∈ index df /\ exists b, l = VStr b /\ b ∈ bl.
Proof.
  intros Hne Hl. destruct bl as [| b0 bl]; [done |]. simpl in Hl.
  apply list_elem_of_filter in Hl as [Hin Hl]. split; [done |].
  destruct l as [s | | |]; try discriminate Hin.
  exists s. split; [done |]. by apply bool_decide_eq_true in Hin.
Qed.

(** X10. Restricting the attribute loader to a list of basins gives what
    the unrestricted load gives with the other rows removed: the same
    exception when that load fails, and otherwise the same columns and the
    rows whose label is in the list, in the order of the file.  Every row
    label of a restricted result is one of the requested basins; a requested
    basin that the file does not have raises nothing. *)
Theorem load_attributes_restriction (data_dir : Path) (bl : list string) (w : world) :
  load_camels_cl_attributes data_dir (Some bl) w =
    match load_camels_cl_attributes data_dir (Some []) w with
    | (Ok full, w1) => (Ok (keep_rows bl full), w1)
    | (Raise e, w1) => (Raise e, w1)
    end /\
  (bl ≠ [] ->
   forall full, (load_camels_cl_attributes data_dir (Some bl) w).1 = Ok full ->
   forall l, l ∈ index full -> exists b, l = VStr b /\ b ∈ bl).
Proof.
  assert (Heq : load_camels_cl_attributes data_dir (Some bl) w =
                match load_camels_cl_attributes data_dir (Some []) w with
                | (Ok full, w1) => (Ok (keep_rows bl full), w1)
                | (Raise e, w1) => (Raise e, w1)
                end).
  { rewrite !load_attributes_run.
    destruct (read_csv _ tab "gauge_id" false w) as [[df0 | e] w1]; [| reflexivity].
    by destruct (convert_date_columns _). }
  split; [exact Heq |].
  intros Hne full Hfull l Hl. rewrite Heq in Hfull.
  destruct (load_camels_cl_attributes data_dir (Some []) w) as [[all | e] w1];
    simpl in Hfull; [| discriminate].
  injection Hfull as <-. by apply (keep_rows_labels bl all l Hne).
Qed.

(** X11. Whatever the files are and whether it succeeds or fails, one call
    of the attribute loader makes exactly one request to the file system:
    it opens [1_CAMELScl_attributes.txt] in the data directory.  It tests no
    directory, opens no other file and changes nothing. *)
Theorem load_attributes_requests (data_dir : Path) (bs : option (list string)) (w : world) :
  (load_camels_cl_attributes data_dir bs w).2 =
    {| fs := fs w; default_basins := default_basins w;
       trace := trace w ++ [EvOpen (data_dir ++ ["1_CAMELScl_attributes.txt"])] |}.
Proof.
  rewrite load_attributes_run.
  pose proof (read_csv_world (attributes_file data_dir) tab "gauge_id" false w) as Hw.
  destruct (read_csv _ tab "gauge_id" false w) as [[df0 | e] w1]; simpl in *; by subst w1.
Qed.

(** X12. When the data directory has no attributes file, the attribute
    loader raises the operating system's [FileNotFoundError] (error number
    2) for the path of that file; when a directory stands at that path, it
    raises [IsADirectoryError]. *)
Theorem load_attributes_missing_file (data_dir : Path) (bs : option (list string))
    (w : world) :
  (fs w !! (data_dir ++ ["1_CAMELScl_attributes.txt"]) = None ->
   (load_camels_cl_attributes data_dir bs w).1 =
     Raise (FileNotFoundError (Some 2) "No such file or directory"
              (Some (path_str (data_dir ++ ["1_CAMELScl_attributes.txt"]))))) /\
  (fs w !! (data_dir ++ ["1_CAMELScl_attributes.txt"]) = Some Directory ->
   (load_camels_cl_attributes data_dir bs w).1 =
     Raise (IsADirectoryError (Some 21) "Is a directory"
              (Some (path_str (data_dir ++ ["1_CAMELScl_attributes.txt"]))))).
Proof.
  split; intros Hfile; rewrite load_attributes_run, read_csv_run;
    unfold attributes_file; by rewrite Hfile.
Qed.

(** X13. One call of the time series loader tests the [preprocessed]
    directory first and, only if it is a directory, opens the file of the
    basin; it makes no other request and changes nothing, whether it
    succeeds or fails. *)
Theorem load_timeseries_requests (data_dir : Path) (basin : string) (w : world) :
  (load_camels_cl_timeseries data_dir basin w).2 =
    {| fs := fs w; default_basins := default_basins w;
       trace := trace w ++
                EvIsDir (data_dir ++ ["preprocessed"]) ::
                match fs w !! (data_dir ++ ["preprocessed"]) with
                | Some Directory =>
                    [EvOpen ((data_dir ++ ["preprocessed"]) ++ [basin +:+ ".csv"])]
                | _ => []
                end |}.
Proof.
  unfold load_camels_cl_timeseries. rewrite bind_run. unfold is_dir.
  destruct (fs w !! (data_dir ++ ["preprocessed"])) as [[| text] |] eqn:Hdir;
    try reflexivity.
  cbn [negb]. rewrite bind_run.
  pose proof (read_csv_world ((data_dir ++ ["preprocessed"]) ++ [basin +:+ ".csv"]) ","
                "date" true (log (EvIsDir (data_dir ++ ["preprocessed"])) w)) as Hw.
  destruct (read_csv _ "," "date" true _) as [[df | e] w1]; simpl in *; subst w1;
    unfold log; cbn [fs default_basins trace]; by rewrite <- (app_assoc (trace w)).
Qed.

(** X14. Loading the series of one basin does not affect a later load:
    the outcome for a basin after any other basin was loaded is the outcome
    of loading it first, and the files are as before. *)
Theorem load_timeseries_independent (data_dir : Path) (a b : string) (w : world) :
  let after_a := (load_camels_cl_timeseries data_dir a w).2 in
  (load_camels_cl_timeseries data_dir b after_a).1 =
    (load_camels_cl_timeseries data_dir b w).1 /\
  fs after_a = fs w.
Proof.
  intros after_a.
  destruct (read_only_load_timeseries data_dir a w) as (Hfs & Hdef & _).
  destruct (read_only_load_timeseries data_dir b w) as (_ & _ & Hres).
  split; [by apply Hres | done].
Qed.

(** X15. With at least one camels attribute configured, [_load_attributes]
    fails exactly when the attribute loader fails, with the same exception,
    and otherwise returns the loaded table cut down to the columns whose
    label is configured: the rows are untouched, and a configured attribute
    that the file does not have raises nothing and is simply not a column
    of the result. *)
Theorem load_attributes_method (self : CamelsCL) (w : world) :
  Config.camels_attributes (cfg self) ≠ [] ->
  _load_attributes self w =
    match load_camels_cl_attributes (Config.data_dir (cfg self)) (Some (basins self)) w with
    | (Ok full, w1) =>
        (Ok (Some (keep_columns (Config.camels_attributes (cfg self)) full)), w1)
    | (Raise e, w1) => (Raise e, w1)
    end /\
  forall full a,
    (load_camels_cl_attributes (Config.data_dir (cfg self)) (Some (basins self)) w).1
      = Ok full ->
    (VStr a ∈ columns (keep_columns (Config.camels_attributes (cfg self)) full) <->
     a ∈ Config.camels_attributes (cfg self) /\ VStr a ∈ columns full).
Proof.
  intros Hsome. split.
  - rewrite load_attributes_method_run.
    by destruct (Config.camels_attributes (cfg self)).
  - intros full a _. unfold keep_columns. cbn [columns].
    rewrite list_elem_of_filter. unfold label_in. by rewrite bool_decide_eq_true.
Qed.

End LoaderExtras.

Lemma load_attributes_restriction_witness :
  exists full w1,
    load_camels_cl_attributes (H := Fixture.pandas) ["data"] (Some ["1001003"; "9999999"])
      Fixture.raw_world = (Ok full, w1) /\
    index full = [VStr "1001003"].
Proof.
  pose proof (proj1 (load_attributes_restriction (H := Fixture.pandas) ["data"]
                       ["1001003"; "9999999"] Fixture.raw_world)) as Heq.
  destruct (load_camels_cl_attributes (H := Fixture.pandas) ["data"] (Some [])
              Fixture.raw_world) as [[all | e] w1] eqn:Hall;
    [| by vm_compute in Hall].
  exists (keep_rows ["1001003"; "9999999"] all), w1. split; [exact Heq |].
  vm_compute in Hall. injection Hall as <- _. by vm_compute.
Defined.

Lemma load_attributes_missing_file_witness :
  (load_camels_cl_attributes (H := Fixture.pandas) ["data"] None Fixture.empty_world).1 =
    Raise (FileNotFoundError (Some 2) "No such file or directory"
             (Some "data/1_CAMELScl_attributes.txt")).
Proof.
  apply (proj1 (load_attributes_missing_file (H := Fixture.pandas) ["data"] None
                  Fixture.empty_world)).
  reflexivity.
Defined.

Lemma load_attributes_method_witness :
  exists df w1,
    _load_attributes (H := Fixture.pandas) Fixture.missing_attribute Fixture.raw_world
      = (Ok (Some df), w1) /\
    columns df = [VStr "area"] /\ index df = [VStr "1001003"].
Proof.
  pose proof (proj1 (load_attributes_method (H := Fixture.pandas) Fixture.missing_attribute
                       Fixture.raw_world ltac:(discriminate))) as Heq.
  destruct (load_camels_cl_attributes (H := Fixture.pandas)
              (Config.data_dir (cfg Fixture.missing_attribute))
              (Some (basins Fixture.missing_attribute)) Fixture.raw_world)
    as [[full | e] w1] eqn:Hfull; [| by vm_compute in Hfull].
  eexists _, w1. split; [exact Heq |].
  vm_compute in Hfull. injection Hfull as <- _. by vm_compute.
Defined.

(** * Rectangular tables *)

Section Rectangular.
Context {num time : Type} `{EqDecision num, EqDecision time} `{Pandas num time}.

Lemma index_of_lt (x : string) (l : list string) (i : nat) :
  index_of x l = Some i -> (i < length l)%nat.
Proof.
  revert i. induction l as [| y l IH]; intros i; simpl; [discriminate |].
  destruct (String.eqb x y).
  - intros [= <-]. lia.
  - destruct (index_of x l) as [j |]; simpl; [| discriminate].
    intros [= <-]. specialize (IH j eq_refl). lia.
Qed.

Lemma length_select {X Y} (f : X -> bool) (idx : list X) (col : list Y) :
  length col = length idx ->
  length (select (f <$> idx) col) = length (filter (fun x => f x = true) idx).
Proof.
  revert col. induction idx as [| x idx IH]; intros [| y col] Hlen; try done.
  rewrite fmap_cons, filter_cons. cbn [select]. injection Hlen as Hlen.
  destruct (f x) eqn:Hfx.
  - rewrite decide_True by done. simpl. by rewrite IH.
  - rewrite decide_False by congruence. by apply IH.
Qed.

Lemma select_elem_of {X} (mask : list bool) (l : list X) (x : X) :
  x ∈ select mask l -> x ∈ l.
Proof.
  intros Hx. destruct (elem_select mask l x Hx) as (j & _ & Hj).
  by eapply list_elem_of_lookup_2.
Qed.

Lemma set_index_rectangular (index_col : string) (tbl : RawTable num time)
    (df : DataFrame num time) :
  set_index index_col tbl = Ok df ->
  rectangular df /\ length (index df) = length (records tbl).
Proof.
  unfold set_index. destruct (index_of index_col (header tbl)) as [i |] eqn:Hi;
    [| discriminate].
  intros [= <-]. apply index_of_lt in Hi. unfold rectangular. simpl.
  rewrite length_fmap, !length_map. split; [| done]. split.
  - rewrite !length_delete; [by rewrite length_map, length_seq | |].
    + by apply lookup_lt_is_Some_2.
    + apply lookup_lt_is_Some_2. by rewrite length_map, length_seq.
  - apply Forall_delete, Forall_fmap, Forall_forall. intros j _. simpl.
    by rewrite length_map.
Qed.

Lemma parse_dates_index_rectangular (df : DataFrame num time) :
  rectangular df ->
  rectangular (parse_dates_index df) /\
  length (index (parse_dates_index df)) = length (index df).
Proof.
  intros [Hc Hs]. unfold parse_dates_index.
  destruct (mapM datetime_cell (index df)) as [idx |] eqn:Hm; [| done].
  apply length_mapM in Hm. unfold rectangular. simpl. rewrite <- Hm. done.
Qed.

Lemma transpose_rectangular (df : DataFrame num time) :
  rectangular df -> rectangular (transpose df).
Proof.
  intros [Hc Hs]. unfold rectangular, transpose. simpl. split.
  - by rewrite length_map, length_seq.
  - apply Forall_fmap, Forall_forall. intros k _. simpl. by rewrite length_map.
Qed.

Lemma to_numeric_length (col : list (value num time)) :
  length (to_numeric col) = length col.
Proof.
  unfold to_numeric. destruct (mapM numeric_cell col) as [col' |] eqn:Hm; [| done].
  by apply length_mapM in Hm.
Qed.

Lemma apply_to_numeric_rectangular (df : DataFrame num time) :
  rectangular df -> rectangular (apply_to_numeric df).
Proof.
  intros [Hc Hs]. unfold rectangular, apply_to_numeric. simpl. split.
  - by rewrite length_fmap.
  - apply Forall_fmap. eapply Forall_impl; [exact Hs |].
    intros col Hcol. simpl. by rewrite to_numeric_length.
Qed.

Lemma converted_column_length (df : DataFrame num time) (label : string)
    (col' : list (value num time)) :
  rectangular df ->
  getitem_col df label ≫= to_datetime = Ok col' ->
  length col' = length (index df).
Proof.
  intros [_ Hs]. unfold getitem_col.
  destruct (select _ (series df)) as [| col [| col2 rest]] eqn:Hsel; simpl;
    [discriminate | | discriminate].
  intros Hconv. apply to_datetime_series, Forall2_length in Hconv. rewrite <- Hconv.
  rewrite Forall_forall in Hs. apply Hs.
  eapply select_elem_of. rewrite Hsel. apply list_elem_of_here.
Qed.

Lemma setitem_col_rectangular (df : DataFrame num time) (label : string)
    (col : list (value num time)) :
  rectangular df -> length col = length (index df) ->
  rectangular (setitem_col df label col).
Proof.
  intros [Hc Hs] Hcol. unfold rectangular, setitem_col.
  destruct (bool_decide (VStr label ∈ columns df)); simpl.
  - split; [rewrite length_zip_with; lia |].
    apply Forall_forall. intros c Hin.
    apply list_elem_of_lookup_1 in Hin as [j Hj].
    apply lookup_zip_with_Some in Hj as (l & old & -> & _ & Hold).
    destruct (bool_decide (l = VStr label)); [done |].
    rewrite Forall_forall in Hs. by eapply Hs, list_elem_of_lookup_2.
  - split; [rewrite !length_app; simpl; lia |].
    apply Forall_app. split; [done |]. by apply Forall_singleton.
Qed.

Lemma convert_date_columns_rectangular (df df' : DataFrame num time) :
  rectangular df -> convert_date_columns df = Ok df' -> rectangular df'.
Proof.
  intros Hrect. unfold convert_date_columns.
  destruct (getitem_col df "record_period_start" ≫= to_datetime) as [c1 | e] eqn:H1;
    [| discriminate].
  change (Ok c1 ≫= ?f) with (f c1). cbv beta zeta.
  pose proof (converted_column_length df _ c1 Hrect H1) as Hl1.
  pose proof (setitem_col_rectangular df "record_period_start" c1 Hrect Hl1) as Hrect2.
  destruct (getitem_col _ "record_period_end" ≫= to_datetime) as [c2 | e] eqn:H2;
    [| discriminate].
  change (Ok c2 ≫= ?f) with (f c2). cbv beta zeta.
  intros [= <-]. apply setitem_col_rectangular; [done |].
  by apply (converted_column_length _ "record_period_end").
Qed.

Lemma keep_rows_rectangular (bs : list string) (df : DataFrame num time) :
  rectangular df -> rectangular (keep_rows bs df).
Proof.
  intros [Hc Hs]. destruct bs as [| b0 bl]; [done |].
  unfold rectangular, keep_rows. cbn [index columns series]. split.
  - by rewrite length_fmap.
  - apply Forall_fmap. eapply Forall_impl; [exact Hs |].
    intros col Hcol. simpl. by apply length_select.
Qed.

Lemma keep_columns_rectangular (names : list string) (df : DataFrame num time) :
  rectangular df -> rectangular (keep_columns names df).
Proof.
  intros [Hc Hs]. unfold rectangular, keep_columns. cbn [index columns series]. split.
  - by apply length_select.
  - apply Forall_forall. intros col Hcol. apply select_elem_of in Hcol.
    rewrite Forall_forall in Hs. by apply Hs.
Qed.

Lemma read_csv_rectangular (path : Path) (sep index_col : string) (dates : bool)
    (w : world) (df : DataFrame num time) :
  (read_csv path sep index_col dates w).1 = Ok df -> rectangular df.
Proof.
  rewrite read_csv_run. simpl.
  destruct (fs w !! path) as [[| text] |]; try discriminate.
  destruct (tokenize sep text) as [tbl | e]; [| discriminate].
  change (Ok tbl ≫= ?f) with (f tbl). cbv beta.
  destruct (set_index index_col tbl) as [df0 | e] eqn:Hset; [| discriminate].
  change (Ok df0 ≫= ?f) with (f df0). cbv beta.
  intros [= <-]. apply set_index_rectangular in Hset as [Hrect _].
  destruct dates; [by apply parse_dates_index_rectangular | done].
Qed.

(** X16. Every table the dataset code returns is rectangular, whatever the
    tokenizer made of the file: the table of [load_camels_cl_timeseries],
    the table of [load_camels_cl_attributes] and the table of
    [_load_attributes] each have one series per column label and one cell per
    row label in every series.  The transposition, the type conversions and
    the row and column drops keep labels and cells aligned. *)
Theorem loaded_tables_rectangular (self : CamelsCL) (data_dir : Path) (basin : string)
    (bs : option (list string)) (w : world) :
  (forall df, (load_camels_cl_timeseries data_dir basin w).1 = Ok df -> rectangular df) /\
  (forall df, (load_camels_cl_attributes data_dir bs w).1 = Ok df -> rectangular df) /\
  (forall df, (_load_attributes self w).1 = Ok (Some df) -> rectangular df).
Proof.
  assert (Hattrs : forall d b df,
            (load_camels_cl_attributes d b w).1 = Ok df -> rectangular df).
  { intros d b df. rewrite load_attributes_run.
    destruct (read_csv _ tab "gauge_id" false w) as [[df0 | e] w1] eqn:Hread;
      [| discriminate].
    assert (Hrect0 : rectangular df0).
    { apply (read_csv_rectangular (attributes_file d) tab "gauge_id" false w).
      by rewrite Hread. }
    destruct (convert_date_columns _) as [df3 | e] eqn:Hconv; [| discriminate].
    simpl. intros [= <-]. apply keep_rows_rectangular.
    eapply convert_date_columns_rectangular; [| exact Hconv].
    by apply apply_to_numeric_rectangular, transpose_rectangular. }
  split; [| split; [apply Hattrs |]].
  - intros df. unfold load_camels_cl_timeseries. rewrite bind_run. unfold is_dir.
    destruct (match fs w !! _ with Some Directory => true | _ => false end);
      cbn [negb]; [| discriminate].
    rewrite bind_run.
    destruct (read_csv _ "," "date" true _) as [[df0 | e] w1] eqn:Hread; [| discriminate].
    simpl. intros [= <-].
    eapply read_csv_rectangular. by rewrite Hread.
  - intros df. destruct (Config.camels_attributes (cfg self)) as [| a0 attrs] eqn:Hcfg.
    + unfold _load_attributes. rewrite Hcfg. discriminate.
    + rewrite load_attributes_method_run, Hcfg.
      destruct (load_camels_cl_attributes _ _ w) as [[full | e] w1] eqn:Hload;
        [| discriminate].
      simpl. intros [= <-]. apply keep_columns_rectangular.
      apply (Hattrs (Config.data_dir (cfg self)) (Some (basins self))).
      by rewrite Hload.
Qed.

End Rectangular.

Lemma loaded_tables_rectangular_witness :
  exists df,
    (load_camels_cl_attributes (H := Fixture.pandas) ["data"] (Some ["1001001"])
       Fixture.raw_world).1 = Ok df /\
    rectangular df /\ length (columns df) = 4%nat /\ length (index df) = 1%nat.
Proof.
  destruct (load_camels_cl_attributes (H := Fixture.pandas) ["data"] (Some ["1001001"])
              Fixture.raw_world).1 as [df | e] eqn:Hload; [| by vm_compute in Hload].
  exists df. split; [reflexivity |]. split.
  - apply (proj1 (proj2 (loaded_tables_rectangular (H := Fixture.pandas)
                           Fixture.two_attributes ["data"] "1001001" (Some ["1001001"])
                           Fixture.raw_world)) df Hload).
  - vm_compute in Hload. injection Hload as <-. split; reflexivity.
Defined.

Section TimeseriesTable.
Context {num time : Type} `{EqDecision num, EqDecision time} `{Pandas num time}.

(** X17. When the [preprocessed] directory and the file of the basin exist
    and the file has a [date] column, the time series loader returns a table
    with one row per record of the file (it drops and filters nothing), the
    [date] column taken out of the columns and used as the index, and the
    other columns in the order of the header.  The index holds timestamps
    when every date of the file parses; when one does not, the loader does
    not fail and the index is the column as it was read. *)
Theorem load_timeseries_table (data_dir : Path) (basin text : string) (w : world)
    (tbl : RawTable num time) (i : nat) :
  fs w !! (data_dir ++ ["preprocessed"]) = Some Directory ->
  fs w !! ((data_dir ++ ["preprocessed"]) ++ [basin +:+ ".csv"]) = Some (File text) ->
  tokenize "," text = Ok tbl ->
  index_of "date" (header tbl) = Some i ->
  let dates := map (fun r => nth i r VNull) (records tbl) in
  exists df,
    (load_camels_cl_timeseries data_dir basin w).1 = Ok df /\
    columns df = VStr <$> delete i (header tbl) /\
    length (index df) = length (records tbl) /\
    (Forall2 (fun c c' => datetime_cell c = Some c') dates (index df) \/
     (Exists (fun c => datetime_cell c = None) dates /\ index df = dates)).
Proof.
  intros Hdir Hfile Htok Hidx dates.
  unfold load_camels_cl_timeseries. rewrite bind_run. unfold is_dir. rewrite Hdir.
  cbn [negb]. rewrite bind_run, read_csv_run. cbn [fs log]. rewrite Hfile, Htok.
  change (Ok tbl ≫= ?f) with (f tbl). cbv beta.
  unfold set_index. rewrite Hidx.
  match goal with
  | |- context [Ok ?d ≫= _] => set (df0 := d)
  end.
  change (Ok df0 ≫= ?f) with (f df0). cbv beta iota.
  exists (parse_dates_index df0). split; [reflexivity |].
  unfold parse_dates_index.
  change (index df0) with dates.
  destruct (mapM datetime_cell dates) as [idx |] eqn:Hm; cbn [columns index].
  - split; [done |]. split.
    + apply length_mapM in Hm. rewrite <- Hm. unfold dates. by rewrite length_map.
    + left. by apply mapM_Some.
  - unfold df0. cbn [columns index]. split; [done |]. split.
    + by rewrite length_map.
    + right. split; [by apply mapM_None | done].
Qed.

End TimeseriesTable.

Lemma load_timeseries_table_witness :
  exists df,
    (load_camels_cl_timeseries (H := Fixture.pandas) ["data"] "1001001"
       Fixture.preprocessed_world).1 = Ok df /\
    columns df = [VStr "precip_cr2met"; VStr "streamflow_mm"] /\
    index df = [VTime (1990, 1, 1); VTime (1990, 1, 2)].
Proof.
  destruct (tokenize (Pandas := Fixture.pandas) "," Fixture.basin_text)
    as [tbl | e] eqn:Htok; [| by vm_compute in Htok].
  destruct (load_timeseries_table (H := Fixture.pandas) ["data"] "1001001"
              Fixture.basin_text Fixture.preprocessed_world tbl 0)
    as (df & Hrun & Hcols & _ & _).
  - reflexivity.
  - reflexivity.
  - exact Htok.
  - vm_compute in Htok. injection Htok as <-. reflexivity.
  - exists df. split; [exact Hrun |].
    vm_compute in Hrun. injection Hrun as <-. split; reflexivity.
Defined.

Section AttributeLabels.
Context {num time : Type} `{EqDecision num, EqDecision time} `{Pandas num time}.

Lemma convert_date_columns_labels (df df' : DataFrame num time) :
  convert_date_columns df = Ok df' ->
  columns df' = columns df /\ index df' = index df.
Proof.
  unfold convert_date_columns.
  destruct (getitem_col df "record_period_start" ≫= to_datetime) as [c1 | e] eqn:H1;
    [| discriminate].
  change (Ok c1 ≫= ?f) with (f c1). cbv beta zeta.
  destruct (getitem_col _ "record_period_end" ≫= to_datetime) as [c2 | e] eqn:H2;
    [| discriminate].
  change (Ok c2 ≫= ?f) with (f c2). cbv beta zeta.
  intros [= <-].
  destruct (date_conversions_columns df c1 c2 H1 H2) as (Hc & Hi & _). by split.
Qed.

(** X18. The attribute loader turns the file around: in the table of an
    unrestricted load the row labels are the basin identifiers of the file's
    header (every header name but [gauge_id], in order), and the column
    labels are the attribute names found in the [gauge_id] column, one per
    record of the file, in order. *)
Theorem load_attributes_labels (data_dir : Path) (w : world) (text : string)
    (tbl : RawTable num time) (i : nat) (full : DataFrame num time) :
  fs w !! (data_dir ++ ["1_CAMELScl_attributes.txt"]) = Some (File text) ->
  tokenize tab text = Ok tbl ->
  index_of "gauge_id" (header tbl) = Some i ->
  (load_camels_cl_attributes data_dir (Some []) w).1 = Ok full ->
  index full = VStr <$> delete i (header tbl) /\
  columns full = map (fun r => nth i r VNull) (records tbl).
Proof.
  intros Hfile Htok Hidx. rewrite load_attributes_run, read_csv_run.
  unfold attributes_file. rewrite Hfile, Htok.
  change (Ok tbl ≫= ?f) with (f tbl). cbv beta.
  unfold set_index. rewrite Hidx.
  match goal with
  | |- context [Ok ?d ≫= _] => set (df0 := d)
  end.
  change (Ok df0 ≫= ?f) with (f df0). cbv beta iota.
  destruct (convert_date_columns _) as [df3 | e] eqn:Hconv; [| discriminate].
  simpl. intros [= <-].
  apply convert_date_columns_labels in Hconv as [Hc Hi]. by rewrite Hc, Hi.
Qed.

(** X19. [_load_attributes] touches the file system only to open the
    attributes file, once, and only when the configuration lists a camels
    attribute; with an empty list it makes no request at all.  In both cases
    the files are left as they were. *)
Theorem load_attributes_method_requests (self : CamelsCL) (w : world) :
  (_load_attributes self w).2 =
    {| fs := fs w; default_basins := default_basins w;
       trace := trace w ++
                match Config.camels_attributes (cfg self) with
                | [] => []
                | _ :: _ =>
                    [EvOpen (Config.data_dir (cfg self) ++ ["1_CAMELScl_attributes.txt"])]
                end |}.
Proof.
  rewrite load_attributes_method_run.
  destruct (Config.camels_attributes (cfg self)) as [| a0 attrs].
  - simpl. rewrite app_nil_r. by destruct w.
  - pose proof (read_csv_world (attributes_file (Config.data_dir (cfg self))) tab
                  "gauge_id" false w) as Hw.
    rewrite load_attributes_run.
    destruct (read_csv _ tab "gauge_id" false w) as [[df0 | e] w1]; simpl in *;
      subst w1; [| reflexivity].
    by destruct (convert_date_columns _).
Qed.

End AttributeLabels.

Lemma load_attributes_labels_witness :
  exists full,
    (load_camels_cl_attributes (H := Fixture.pandas) ["data"] (Some [])
       Fixture.raw_world).1 = Ok full /\
    index full = [VStr "1001001"; VStr "1001002"; VStr "1001003"] /\
    columns full = [VStr "gauge_name"; VStr "area"; VStr "record_period_start";
                    VStr "record_period_end"].
Proof.
  destruct (tokenize (Pandas := Fixture.pandas) tab Fixture.attributes_text)
    as [tbl | e] eqn:Htok; [| by vm_compute in Htok].
  destruct (load_camels_cl_attributes (H := Fixture.pandas) ["data"] (Some [])
              Fixture.raw_world).1 as [full | e] eqn:Hload; [| by vm_compute in Hload].
  destruct (load_attributes_labels (H := Fixture.pandas) ["data"] Fixture.raw_world
              Fixture.attributes_text tbl 0 full) as [Hi Hc].
  - reflexivity.
  - exact Htok.
  - vm_compute in Htok. injection Htok as <-. reflexivity.
  - exact Hload.
  - exists full. split; [reflexivity |]. rewrite Hi, Hc.
    vm_compute in Htok. injection Htok as <-. split; reflexivity.
Defined.

(** * When the conversion of the record-period columns fails *)

Section DateOutcome.
Context {num time : Type} `{EqDecision num, EqDecision time} `{Pandas num time}.

Lemma convert_column_ok (df : DataFrame num time) (label : string)
    (col' : list (value num time)) :
  getitem_col df label ≫= to_datetime = Ok col' <->
  exists col, column_cells df label = [col] /\ mapM datetime_cell col = Some col'.
Proof.
  unfold getitem_col. fold (column_cells df label).
  destruct (column_cells df label) as [| col [| col2 rest]]; simpl.
  - split; [discriminate | by intros (col & ? & _)].
  - destruct (mapM datetime_cell col) as [l |] eqn:Hm.
    + split.
      * intros [= <-]. by exists col.
      * intros (c & [= <-] & Hc). rewrite Hm in Hc. by injection Hc as ->.
    + split; [discriminate |]. intros (c & [= <-] & Hc). congruence.
  - split; [discriminate | by intros (col0 & ? & _)].
Qed.

Lemma convert_column_ready (df : DataFrame num time) (label : string) :
  date_ready df label <->
  exists col', getitem_col df label ≫= to_datetime = Ok col'.
Proof.
  unfold date_ready. split.
  - intros (col & Hcells & Hall).
    destruct (mapM_is_Some_2 datetime_cell col) as [col' Hm].
    { eapply Forall_impl; [exact Hall | done]. }
    exists col'. apply convert_column_ok. by exists col.
  - intros (col' & Hok). apply convert_column_ok in Hok as (col & Hcells & Hm).
    exists col. split; [done |].
    eapply Forall_impl; [apply (mapM_is_Some_1 datetime_cell col); by exists col' | done].
Qed.

Lemma convert_column_raise (df : DataFrame num time) (label : string) (e : exception) :
  getitem_col df label ≫= to_datetime = Raise e <-> date_failure df label e.
Proof.
  unfold getitem_col. fold (column_cells df label). split.
  - destruct (column_cells df label) as [| col [| col2 rest]] eqn:Hcells; simpl.
    + intros [= <-]. by apply missing_label.
    + destruct (mapM datetime_cell col) as [l |] eqn:Hm; [discriminate |].
      intros [= <-]. apply (unparsed_cell df label col Hcells). by apply mapM_None.
    + intros [= <-]. apply repeated_label. rewrite Hcells. simpl. lia.
  - intros [Hcells | Hlen | col Hcells Hex].
    + by rewrite Hcells.
    + destruct (column_cells df label) as [| col [| col2 rest]]; simpl in *; [lia | lia | done].
    + rewrite Hcells. simpl. apply mapM_None in Hex. by rewrite Hex.
Qed.

Lemma select_zip_with_other (l1 l2 : string) (col : list (value num time))
    (cols : list (value num time)) (ser : list (list (value num time))) :
  l1 ≠ l2 ->
  select ((fun c => bool_decide (c = VStr l2)) <$> cols)
         (zip_with (fun c old => if bool_decide (c = VStr l1) then col else old) cols ser)
  = select ((fun c => bool_decide (c = VStr l2)) <$> cols) ser.
Proof.
  intros Hne. revert ser. induction cols as [| c cols IH]; intros [| s ser]; try done.
  rewrite fmap_cons. cbn [zip_with select].
  destruct (decide (c = VStr l2)) as [-> | Hc].
  - rewrite bool_decide_eq_true_2 by done.
    rewrite bool_decide_eq_false_2 by congruence. by rewrite IH.
  - rewrite (bool_decide_eq_false_2 _ Hc). apply IH.
Qed.

(** Assigning to the column [l1] leaves the series of another label as they
    were. *)
Lemma column_cells_setitem_other (df : DataFrame num time) (l1 l2 : string)
    (col : list (value num time)) :
  l1 ≠ l2 -> VStr l1 ∈ columns df ->
  column_cells (setitem_col df l1 col) l2 = column_cells df l2.
Proof.
  intros Hne Hin. unfold column_cells, setitem_col.
  rewrite (bool_decide_eq_true_2 _ Hin). cbn [columns series].
  by apply select_zip_with_other.
Qed.

Lemma date_ready_cells (df df' : DataFrame num time) (label : string) :
  column_cells df' label = column_cells df label ->
  date_ready df' label <-> date_ready df label.
Proof. intros Hc. unfold date_ready. by rewrite Hc. Qed.

Lemma date_failure_cells (df df' : DataFrame num time) (label : string) (e : exception) :
  column_cells df' label = column_cells df label ->
  date_failure df' label e <-> date_failure df label e.
Proof.
  intros Hc. split; intros [Hcells | Hlen | col Hcells Hex].
  - apply missing_label. congruence.
  - apply repeated_label. congruence.
  - apply (unparsed_cell _ _ col); [congruence | done].
  - apply missing_label. congruence.
  - apply repeated_label. congruence.
  - apply (unparsed_cell _ _ col); [congruence | done].
Qed.

(** The two conversions in turn succeed exactly when both columns are
    ready; otherwise they raise the failure of the first column that is
    not. *)
Lemma convert_date_columns_outcome (df : DataFrame num time) :
  ((exists df', convert_date_columns df = Ok df') <->
   date_ready df "record_period_start" /\ date_ready df "record_period_end") /\
  (forall e, convert_date_columns df = Raise e <->
     date_failure df "record_period_start" e \/
     (date_ready df "record_period_start" /\ date_failure df "record_period_end" e)).
Proof.
  unfold convert_date_columns.
  destruct (getitem_col df "record_period_start" ≫= to_datetime) as [c1 | e1] eqn:H1.
  - assert (Hready1 : date_ready df "record_period_start")
      by (apply convert_column_ready; by exists c1).
    assert (Hnofail1 : forall e, ~ date_failure df "record_period_start" e).
    { intros e He. apply convert_column_raise in He. congruence. }
    destruct (convert_date_column_ok _ _ _ H1) as [Hin1 _].
    pose proof (column_cells_setitem_other df "record_period_start" "record_period_end"
                  c1 ltac:(discriminate) Hin1) as Hcells.
    change (Ok c1 ≫= ?f) with (f c1). cbv beta zeta.
    destruct (getitem_col _ "record_period_end" ≫= to_datetime) as [c2 | e2] eqn:H2.
    + change (Ok c2 ≫= ?f) with (f c2). cbv beta zeta.
      assert (Hready2 : date_ready df "record_period_end").
      { apply (date_ready_cells df _ _ Hcells), convert_column_ready. by exists c2. }
      split; [split; [done | by eexists] |].
      intros e. split; [discriminate |].
      intros [He | [_ He]]; [by apply Hnofail1 in He |].
      apply (date_failure_cells df _ _ _ Hcells), convert_column_raise in He. congruence.
    + change (Raise e2 ≫= ?f) with (@Raise (DataFrame num time) e2).
      split.
      * split; [by intros [df' ?] |]. intros [_ Hready2].
        apply (date_ready_cells df _ _ Hcells), convert_column_ready in Hready2
          as [c2 Hc2]. congruence.
      * intros e. split.
        -- intros [= <-]. right. split; [done |].
           by apply (date_failure_cells df _ _ _ Hcells), convert_column_raise.
        -- intros [He | [_ He]]; [by apply Hnofail1 in He |].
           apply (date_failure_cells df _ _ _ Hcells), convert_column_raise in He.
           congruence.
  - change (Raise e1 ≫= ?f) with (@Raise (DataFrame num time) e1).
    split.
    + split; [by intros [df' ?] |]. intros [Hready1 _].
      apply convert_column_ready in Hready1 as [c1 Hc1]. congruence.
    + intros e. split.
      * intros [= <-]. left. by apply convert_column_raise.
      * intros [He | [Hready1 _]].
        -- apply convert_column_raise in He. congruence.
        -- apply convert_column_ready in Hready1 as [c1 Hc1]. congruence.
Qed.

End DateOutcome.

Section LoaderOutcome.
Context {num time : Type} `{EqDecision num, EqDecision time} `{Pandas num time}.

Lemma convert_date_columns_steps (df df' : DataFrame num time) :
  convert_date_columns df = Ok df' ->
  exists c1 c2,
    getitem_col df "record_period_start" ≫= to_datetime = Ok c1 /\
    getitem_col (setitem_col df "record_period_start" c1) "record_period_end"
      ≫= to_datetime = Ok c2 /\
    df' = setitem_col (setitem_col df "record_period_start" c1) "record_period_end" c2.
Proof.
  unfold convert_date_columns.
  destruct (getitem_col df "record_period_start" ≫= to_datetime) as [c1 | e] eqn:H1;
    [| discriminate].
  change (Ok c1 ≫= ?f) with (f c1). cbv beta zeta.
  destruct (getitem_col _ "record_period_end" ≫= to_datetime) as [c2 | e] eqn:H2;
    [| discriminate].
  change (Ok c2 ≫= ?f) with (f c2). cbv beta zeta.
  intros [= <-]. by exists c1, c2.
Qed.

(** C8, as the code has it. For every attributes file that [read_csv]
    reads and indexes by [gauge_id]: the numeric conversion cannot fail, it
    converts each column whose cells all convert and hands every other column
    back unchanged.  The load then succeeds exactly when each of
    [record_period_start] and [record_period_end] labels exactly one column
    whose cells [to_datetime] all accepts.  In that case each of the two
    columns holds the timestamps that [to_datetime] gives for its cells after
    the numeric conversion, and every other column is exactly what the
    numeric conversion left, on the requested rows.  Otherwise the load
    raises the failure of the first of the two columns that is not so:
    [KeyError] of the label when no column carries it, the [ValueError] of
    [to_datetime] on a frame when several columns carry it, and the
    [ValueError] of [to_datetime] when a cell cannot be parsed, as is
    non-numeric text that is not a date.  For cells that are text, numbers,
    timestamps or missing it raises nothing else and in no other case. *)
Theorem load_attributes_conversions (data_dir : Path) (bs : option (list string))
    (w w1 : world) (df0 : DataFrame num time) :
  read_csv (data_dir ++ ["1_CAMELScl_attributes.txt"]) tab "gauge_id" false w
    = (Ok df0, w1) ->
  let raw := transpose df0 in
  let df1 := apply_to_numeric raw in
  let wanted := default (default_basins w) bs in
  let outcome := load_camels_cl_attributes data_dir bs w in
  Forall (fun col =>
            Forall2 (fun c c' => numeric_cell c = Some c') col (to_numeric col) \/
            (Exists (fun c => numeric_cell c = None) col /\ to_numeric col = col))
         (series raw) /\
  outcome.2 = w1 /\
  ((exists full, outcome.1 = Ok full) <->
   date_ready df1 "record_period_start" /\ date_ready df1 "record_period_end") /\
  (forall e, outcome.1 = Raise e <->
     date_failure df1 "record_period_start" e \/
     (date_ready df1 "record_period_start" /\ date_failure df1 "record_period_end" e)) /\
  (forall full, outcome.1 = Ok full ->
     columns full = columns raw /\
     index full = requested_rows wanted (index raw) (index raw) /\
     forall j label rawcol,
       columns raw !! j = Some label -> series raw !! j = Some rawcol ->
       exists col,
         series full !! j = Some (requested_rows wanted (index raw) col) /\
         if bool_decide (label ∈ (VStr <$> date_columns : list (value num time)))
         then Forall2 (fun c c' => datetime_cell c = Some c') (to_numeric rawcol) col
         else col = to_numeric rawcol).
Proof.
  intros Hread raw df1 wanted outcome.
  assert (Hout : outcome =
                 (match convert_date_columns df1 with
                  | Ok df => Ok (keep_rows wanted df)
                  | Raise e => Raise e
                  end, w1)).
  { unfold outcome. rewrite load_attributes_run. unfold attributes_file.
    by rewrite Hread. }
  destruct (convert_date_columns_outcome df1) as [Hsuccess Hfailure].
  split; [| split; [| split; [| split]]].
  - apply Forall_forall. intros col _. apply to_numeric_column.
  - by rewrite Hout.
  - rewrite <- Hsuccess, Hout. cbn [fst]. split.
    + intros [full Hfull]. destruct (convert_date_columns df1) as [df3 |]; [| done].
      by exists df3.
    + intros [df3 Hdf3]. rewrite Hdf3. by eexists.
  - intros e. rewrite <- Hfailure, Hout. cbn [fst].
    destruct (convert_date_columns df1) as [df3 | e3]; [done |].
    split; congruence.
  - intros full. rewrite Hout. cbn [fst].
    destruct (convert_date_columns df1) as [df3 | e3] eqn:Hconv; [| discriminate].
    intros [= <-].
    destruct (convert_date_columns_steps df1 df3 Hconv) as (c1 & c2 & H1 & H2 & ->).
    destruct (date_conversions_columns df1 c1 c2 H1 H2) as (Hcols & Hidx & Hseries).
    set (df3 := setitem_col (setitem_col df1 "record_period_start" c1)
                  "record_period_end" c2) in *.
    assert (Hraw : forall j label rawcol,
               columns raw !! j = Some label -> series raw !! j = Some rawcol ->
               exists col, series df3 !! j = Some col /\
                 if bool_decide (label ∈ (VStr <$> date_columns : list (value num time)))
                 then Forall2 (fun c c' => datetime_cell c = Some c') (to_numeric rawcol) col
                 else col = to_numeric rawcol).
    { intros j label rawcol Hl Hr. apply (Hseries j label); [exact Hl |].
      unfold df1, apply_to_numeric. cbn [series]. by rewrite list_lookup_fmap, Hr. }
    destruct wanted as [| b0 bl] eqn:Hwanted.
    + simpl. repeat split; done.
    + cbn [keep_rows columns index series requested_rows]. rewrite Hidx, Hcols.
      split; [done |]. split; [by rewrite select_filter |].
      intros j label rawcol Hl Hr.
      destruct (Hraw j label rawcol Hl Hr) as (col & Hcol & Hkind).
      exists col. split; [| done]. by rewrite list_lookup_fmap, Hcol.
Qed.

End LoaderOutcome.

Lemma load_attributes_conversions_witness :
  (exists full,
     (load_camels_cl_attributes (H := Fixture.pandas) ["data"] None Fixture.raw_world).1
     = Ok full) /\
  (load_camels_cl_attributes (H := Fixture.pandas) ["data"] None
     Fixture.unknown_start_world).1
  = Raise (ValueError "to_datetime: unable to parse a value as a datetime") /\
  (load_camels_cl_attributes (H := Fixture.pandas) ["data"] None
     Fixture.repeated_start_world).1
  = Raise (ValueError
             "to assemble mappings requires at least that [year, month, day] be specified").
Proof.
  split; [| split].
  - destruct (read_csv (H := Fixture.pandas) ["data"; "1_CAMELScl_attributes.txt"] tab
                "gauge_id" false Fixture.raw_world) as [[df0 | e] w1] eqn:Hread;
      [| by vm_compute in Hread].
    destruct (load_attributes_conversions (H := Fixture.pandas) ["data"] None
                Fixture.raw_world w1 df0 Hread) as (_ & _ & Hsuccess & _ & _).
    apply Hsuccess. vm_compute in Hread. injection Hread as <- _.
    split; (eexists; split; [by vm_compute |]);
      repeat (apply Forall_cons; split; [by vm_compute; eexists |]); by apply Forall_nil.
  - destruct (read_csv (H := Fixture.pandas) ["data"; "1_CAMELScl_attributes.txt"] tab
                "gauge_id" false Fixture.unknown_start_world) as [[df0 | e] w1] eqn:Hread;
      [| by vm_compute in Hread].
    destruct (load_attributes_conversions (H := Fixture.pandas) ["data"] None
                Fixture.unknown_start_world w1 df0 Hread) as (_ & _ & _ & Hfailure & _).
    apply Hfailure. vm_compute in Hread. injection Hread as <- _.
    left. eapply unparsed_cell; [by vm_compute |].
    apply Exists_cons_tl, Exists_cons_hd. reflexivity.
  - destruct (read_csv (H := Fixture.pandas) ["data"; "1_CAMELScl_attributes.txt"] tab
                "gauge_id" false Fixture.repeated_start_world) as [[df0 | e] w1] eqn:Hread;
      [| by vm_compute in Hread].
    destruct (load_attributes_conversions (H := Fixture.pandas) ["data"] None
                Fixture.repeated_start_world w1 df0 Hread) as (_ & _ & _ & Hfailure & _).
    apply Hfailure. vm_compute in Hread. injection Hread as <- _.
    left. apply repeated_label. vm_compute. lia.
Defined.
